(** * Magnum GDB pretty-printers ([src/debuggers/gdb/magnum/printers.py])

    A shallow embedding of the printer classes of [printers.py] and of the
    registration entry points, together with the properties of the
    natural-language specification that concern them.

    Conventions of the embedding:
    - Python [str] values are [string]s (type names as gdb prints them are
      ASCII); Python [int]s are [Z];
    - a Python exception is the [Raise] case of [result];
    - a [gdb.Value] is seen through the accessors a printer uses on it: an
      indexable value is a function from the index to the element, a struct
      is a record of the fields that are read;
    - an [Iterator] class is a record for its attributes and a [__next__]
      function returning the outcome and the updated iterator. *)

From Stdlib Require Import ZArith QArith Qround List Bool Lia Permutation.
From Stdlib Require Import Strings.String Strings.Ascii.
From Stdlib Require Import Numbers.DecimalString.
Import ListNotations.

Open Scope string_scope.
Open Scope Z_scope.

(** ** Exceptions *)

Inductive exn : Type :=
| IndexError
| ValueError
| OverflowError
| ZeroDivisionError
| StructError
| TypeError
| RuntimeError (msg : string).

Inductive result (A : Type) : Type :=
| Ok (a : A)
| Raise (e : exn).

Arguments Ok {A} a.
Arguments Raise {A} e.

Definition bind {A B : Type} (r : result A) (k : A -> result B) : result B :=
  match r with
  | Ok a => k a
  | Raise e => Raise e
  end.

Notation "x <- r ;; k" := (bind r (fun x => k))
  (at level 61, r at next level, right associativity).

(** ** The Python built-ins the printers use *)

Module Py.

(** [s.split(sep)] for a one-character separator: every occurrence splits,
    and the result always has at least one element. *)
Fixpoint split (sep : ascii) (s : string) : list string :=
  match s with
  | EmptyString => [EmptyString]
  | String c s' =>
      if Ascii.eqb c sep then EmptyString :: split sep s'
      else match split sep s' with
           | [] => [String c EmptyString]
           | p :: ps => String c p :: ps
           end
  end.

(** [l[i]] for a non-negative literal index [i]. *)
Definition index {A : Type} (l : list A) (i : nat) : result A :=
  match nth_error l i with
  | Some a => Ok a
  | None => Raise IndexError
  end.

(** [s[-1]], a one-character string. *)
Fixpoint last_char (s : string) : result string :=
  match s with
  | EmptyString => Raise IndexError
  | String c EmptyString => Ok (String c EmptyString)
  | String _ s' => last_char s'
  end.

(** [sep.join(parts)]. *)
Fixpoint join (sep : string) (parts : list string) : string :=
  match parts with
  | [] => EmptyString
  | [p] => p
  | p :: ps => p ++ sep ++ join sep ps
  end.

(** The characters of [s], as iterating over a string gives them. *)
Fixpoint chars (s : string) : list string :=
  match s with
  | EmptyString => []
  | String c s' => String c EmptyString :: chars s'
  end.

(** [c in s] for a character. *)
Fixpoint occurs (c : ascii) (s : string) : bool :=
  match s with
  | EmptyString => false
  | String c' s' => Ascii.eqb c' c || occurs c s'
  end.

(** [sub in s]. *)
Fixpoint contains (sub s : string) : bool :=
  if String.prefix sub s then true
  else match s with
       | EmptyString => false
       | String _ s' => contains sub s'
       end.

(** ASCII white space as [str.strip()] sees it: TAB, LF, VT, FF, CR, the
    separators FS, GS, RS, US, and the space. *)
Definition isspace (c : ascii) : bool :=
  let n := Z.of_nat (nat_of_ascii c) in
  ((9 <=? n) && (n <=? 13)) || ((28 <=? n) && (n <=? 32)).

(** ASCII white space as [int()] skips it around a literal: TAB, LF, VT, FF,
    CR and the space (not the separators FS, GS, RS, US). *)
Definition isspace_literal (c : ascii) : bool :=
  let n := Z.of_nat (nat_of_ascii c) in
  ((9 <=? n) && (n <=? 13)) || (n =? 32).

Fixpoint lstrip (space : ascii -> bool) (s : string) : string :=
  match s with
  | String c s' => if space c then lstrip space s' else s
  | EmptyString => EmptyString
  end.

Fixpoint rstrip (space : ascii -> bool) (s : string) : string :=
  match s with
  | EmptyString => EmptyString
  | String c s' =>
      match rstrip space s' with
      | EmptyString => if space c then EmptyString else String c EmptyString
      | r => String c r
      end
  end.

(** [s.strip()]. *)
Definition strip (s : string) : string := rstrip isspace (lstrip isspace s).

Definition digit_value (c : ascii) : option Z :=
  let n := Z.of_nat (nat_of_ascii c) in
  if (48 <=? n) && (n <=? 57) then Some (n - 48) else None.

(** The digits of an integer literal after its sign: [acc] is the value read
    so far, [after_digit] tells whether the previous character was a digit
    (an underscore is accepted between two digits only). *)
Fixpoint int_digits (acc : Z) (after_digit : bool) (s : string) : option Z :=
  match s with
  | EmptyString => if after_digit then Some acc else None
  | String c s' =>
      match digit_value c with
      | Some d => int_digits (10 * acc + d) true s'
      | None =>
          if Ascii.eqb c "_" && after_digit then
            match s' with
            | String c' _ =>
                match digit_value c' with
                | Some _ => int_digits acc false s'
                | None => None
                end
            | EmptyString => None
            end
          else None
      end
  end.

(** [int(s)] in base ten for an ASCII string: surrounding white space is
    dropped, a sign is optional, anything else raises [ValueError].  (The
    interpreter's optional limit on the number of digits of a literal is not
    modelled.) *)
Definition int (s : string) : result Z :=
  let body := rstrip isspace_literal (lstrip isspace_literal s) in
  let parsed :=
    match body with
    | String c r =>
        if Ascii.eqb c "-" then option_map Z.opp (int_digits 0 false r)
        else if Ascii.eqb c "+" then int_digits 0 false r
        else int_digits 0 false body
    | EmptyString => None
    end in
  match parsed with
  | Some n => Ok n
  | None => Raise ValueError
  end.

(** [str(n)] for an integer. *)
Definition str (n : Z) : string := NilZero.string_of_int (Z.to_int n).

Definition hex_digit (d : Z) : ascii :=
  ascii_of_nat (Z.to_nat (if d <? 10 then 48 + d else 87 + d)).

Fixpoint hex_pos (fuel : nat) (n : Z) (acc : string) : string :=
  match fuel with
  | O => acc
  | S fuel' =>
      let acc' := String (hex_digit (n mod 16)) acc in
      if n / 16 =? 0 then acc' else hex_pos fuel' (n / 16) acc'
  end.

(** [format(n, "x")] for a non-negative integer: lowercase hexadecimal. *)
Definition hex (n : Z) : string :=
  hex_pos (S (Z.to_nat (Z.log2 n))) n EmptyString.

Fixpoint zfill (pad : nat) (s : string) : string :=
  match pad with
  | O => s
  | S p => String "0" (zfill p s)
  end.

(** ["{:02x}".format(n)] for a non-negative integer: lowercase hexadecimal,
    padded with zeros on the left to two characters. *)
Definition format_02x (n : Z) : string :=
  let h := hex n in
  zfill (2 - String.length h) h.

(** *** Floating-point values

    A Python [float] is an IEEE-754 binary64 value; a finite one is
    [(-1)^neg * m * 2^e] with [0 <= m < 2^53]. *)
Inductive float : Type :=
| Finite (neg : bool) (m : Z) (e : Z)
| Infinity (neg : bool)
| NaN.

(** The integer nearest to [num / den], ties to the even one
    ([0 <= num], [0 < den]). *)
Definition round_half_even (num den : Z) : Z :=
  let q := num / den in
  let r := num mod den in
  if 2 * r <? den then q
  else if den <? 2 * r then q + 1
  else if Z.even q then q else q + 1.

(** [a / b] on integers (true division): the quotient correctly rounded to
    binary64, [ZeroDivisionError] for a zero divisor and [OverflowError] when
    the quotient is too large for a float. *)
Definition truediv (a b : Z) : result float :=
  if b =? 0 then Raise ZeroDivisionError
  else
    let neg := xorb (a <? 0) (b <? 0) in
    let x := Z.abs a in
    let y := Z.abs b in
    if x =? 0 then Ok (Finite neg 0 0)
    else
      let p0 := Z.log2 x - Z.log2 y in
      let reaches :=
        if 0 <=? p0 then y * 2 ^ p0 <=? x else y <=? x * 2 ^ (- p0) in
      let p := if reaches then p0 else p0 - 1 in
      let sh := Z.min (52 - p) 1074 in
      let m :=
        if 0 <=? sh then round_half_even (x * 2 ^ sh) y
        else round_half_even x (y * 2 ^ (- sh)) in
      if (1024 <=? p) || ((p =? 1023) && (m =? 2 ^ 53))
      then Raise OverflowError
      else Ok (Finite neg m (- sh)).

(** [int(f)] for a float: truncation towards zero. *)
Definition int_of_float (f : float) : result Z :=
  match f with
  | Finite neg m e =>
      let mag := if 0 <=? e then m * 2 ^ e else m / 2 ^ (- e) in
      Ok (if neg then - mag else mag)
  | Infinity _ => Raise OverflowError
  | NaN => Raise ValueError
  end.

(** [sys.byteorder]. *)
Inductive byteorder : Type := little | big.

Fixpoint le_bytes (length : nat) (n : Z) : list Z :=
  match length with
  | O => []
  | S l => n mod 256 :: le_bytes l (n / 256)
  end.

(** [n.to_bytes(length, byteorder=order)] (unsigned). *)
Definition to_bytes (n : Z) (length : nat) (order : byteorder)
  : result (list Z) :=
  if (n <? 0) || (256 ^ Z.of_nat length <=? n) then Raise OverflowError
  else
    Ok match order with
       | little => le_bytes length n
       | big => rev (le_bytes length n)
       end.

Fixpoint le_value (bytes : list Z) : Z :=
  match bytes with
  | [] => 0
  | b :: r => b + 256 * le_value r
  end.

(** The value of an IEEE-754 binary16 bit pattern: bit 15 is the sign, bits
    14..10 the biased exponent, bits 9..0 the fraction. *)
Definition binary16 (bits : Z) : float :=
  let sign := Z.testbit bits 15 in
  let ex := Z.land (Z.shiftr bits 10) 31 in
  let frac := Z.land bits 1023 in
  if ex =? 0 then Finite sign frac (-24)
  else if ex =? 31 then (if frac =? 0 then Infinity sign else NaN)
  else Finite sign (1024 + frac) (ex - 25).

(** [struct.unpack('e', data)[0]]: the two bytes are read in the native byte
    order [order] as a binary16 value, widened (exactly) to a float. *)
Definition unpack_e (order : byteorder) (data : list Z) : result float :=
  if (List.length data =? 2)%nat then
    Ok (binary16 match order with
                 | little => le_value data
                 | big => le_value (rev data)
                 end)
  else Raise StructError.

(** *** [repr] of a float

    The shortest decimal string that reads back as the same binary64 value,
    the closest to the value among the shortest ones. *)

Definition pow2 (k : Z) : Q := Qpower (2 # 1) k.
Definition pow10 (k : Z) : Q := Qpower (10 # 1) k.

Definition Qlt_bool (x y : Q) : bool := negb (Qle_bool y x).

(** The least [d] from [start] on with [v < 10^d]. *)
Fixpoint decimal_point (fuel : nat) (v : Q) (d : Z) : Z :=
  match fuel with
  | O => d
  | S fuel' => if Qlt_bool v (pow10 d) then d
               else decimal_point fuel' v (d + 1)
  end.

(** The shortest digits of [v], which binary64 rounding maps to [v] exactly
    for the decimals of [[v - lo_gap, v + hi_gap]] (the ends included when
    [closed]): the result [(c, k)] stands for [c * 10^k]; [n] is the number
    of digits tried, [d] the position of the decimal point of [v]. *)
Fixpoint shortest (fuel : nat) (v lo_gap hi_gap : Q) (closed : bool)
    (d n : Z) : Z * Z :=
  let k := d - n in
  let lo := Qfloor (Qred (v / pow10 k)) in
  let hi := lo + 1 in
  let dlo := Qred (v - inject_Z lo * pow10 k)%Q in
  let dhi := Qred (inject_Z hi * pow10 k - v)%Q in
  let within (dist gap : Q) :=
    if closed then Qle_bool dist gap else Qlt_bool dist gap in
  let in_lo := within dlo lo_gap in
  let in_hi := within dhi hi_gap in
  let pick :=
    if in_lo && in_hi then
      if Qlt_bool dlo dhi then Some lo
      else if Qlt_bool dhi dlo then Some hi
      else Some (if Z.even lo then lo else hi)
    else if in_lo then Some lo
    else if in_hi then Some hi
    else None in
  match pick, fuel with
  | Some c, _ => (c, k)
  | None, O => (lo, k)
  | None, S fuel' => shortest fuel' v lo_gap hi_gap closed d (n + 1)
  end.

Fixpoint drop_zeros (fuel : nat) (c k : Z) : Z * Z :=
  match fuel with
  | O => (c, k)
  | S fuel' =>
      if (c mod 10 =? 0) && negb (c =? 0) then drop_zeros fuel' (c / 10) (k + 1)
      else (c, k)
  end.

(** Digits and decimal exponent of the finite non-zero value [m * 2^e]. *)
Definition float_digits (m e : Z) : Z * Z :=
  let v := Qred (inject_Z m * pow2 e)%Q in
  let p := Z.log2 m + e in
  let ue := Z.max (p - 52) (-1074) in
  let hi_gap := pow2 (ue - 1) in
  let lo_gap :=
    if (m =? 2 ^ Z.log2 m) && (-1022 <? p) then pow2 (ue - 2) else hi_gap in
  let closed := Z.even (m * 2 ^ (e - ue)) in
  let d := decimal_point 16 v (p * 3 / 10 - 3) in
  let '(c, k) := shortest 16 v lo_gap hi_gap closed d 1 in
  drop_zeros 20 c k.

Fixpoint zeros (n : nat) : string :=
  match n with
  | O => EmptyString
  | S n' => String "0" (zeros n')
  end.

(** [repr(f)], which is also [str(f)] and what an f-string shows: fixed
    notation when the decimal point falls in the range [-4 < decpt <= 16],
    exponent notation otherwise. *)
Definition float_repr (f : float) : string :=
  match f with
  | NaN => "nan"
  | Infinity neg => (if neg then "-inf" else "inf")
  | Finite neg m e =>
      (if neg then "-" else "") ++
      (if m =? 0 then "0.0"
       else
         let '(c, k) := float_digits m e in
         let ds := str c in
         let nd := Z.of_nat (String.length ds) in
         let decpt := nd + k in
         if (decpt <=? -4) || (16 <? decpt) then
           let ex := decpt - 1 in
           let es := str (Z.abs ex) in
           substring 0 1 ds
           ++ (if nd =? 1 then "" else "." ++ substring 1 (Z.to_nat (nd - 1)) ds)
           ++ "e" ++ (if ex <? 0 then "-" else "+")
           ++ zeros (2 - String.length es) ++ es
         else if decpt <=? 0 then "0." ++ zeros (Z.to_nat (- decpt)) ++ ds
         else if decpt <? nd then
           substring 0 (Z.to_nat decpt) ds ++ "."
           ++ substring (Z.to_nat decpt) (Z.to_nat (nd - decpt)) ds
         else ds ++ zeros (Z.to_nat (decpt - nd)) ++ ".0")
  end.

End Py.


(** ** The iterator protocol

    A call of [__next__] yields a child, raises [StopIteration], or fails
    with another exception; it also updates the iterator. *)

Inductive next_result (A : Type) : Type :=
| Yield (a : A)
| StopIteration
| Failure (e : exn).

Arguments Yield {A} a.
Arguments StopIteration {A}.
Arguments Failure {A} e.

(** What the host sees when it consumes an iterator with a [for] loop:
    [__next__] is called until it raises.  [None] means that [fuel] calls did
    not reach the end. *)
Fixpoint consume {S A : Type} (next : S -> next_result A * S)
    (fuel : nat) (it : S) : option (result (list A)) :=
  match fuel with
  | O => None
  | S fuel' =>
      match next it with
      | (Yield a, it') =>
          match consume next fuel' it' with
          | Some (Ok l) => Some (Ok (a :: l))
          | r => r
          end
      | (StopIteration, _) => Some (Ok [])
      | (Failure e, _) => Some (Raise e)
      end
  end.

(** [l[i]] for a list and an integer index, negative indices counting from
    the end. *)
Definition list_get {A : Type} (l : list A) (i : Z) : result A :=
  let n := Z.of_nat (List.length l) in
  let j := if i <? 0 then i + n else i in
  if (j <? 0) || (n <=? j) then Raise IndexError
  else Py.index l (Z.to_nat j).

(** The integers [start, start + 1, ...], [n] of them. *)
Fixpoint zrange (start : Z) (n : nat) : list Z :=
  match n with
  | O => []
  | S n' => start :: zrange (start + 1) n'
  end.

(** ** The printer classes *)

(** What a printer reads of the type of its value: the text of
    [val.type] and [val.type.strip_typedefs().name]. *)
Record gdb_type : Type := {
  type_text : string;
  stripped_name : string
}.

(** The classes of the file; [MagnumTypePrinter] is the base class. *)
Inductive printer_class : Type :=
| MagnumTypePrinter
| MagnumImage
| MagnumResource
| MagnumResourceKey
| MagnumTimeline
| MagnumTrack
| MagnumAngle
| MagnumBezier
| MagnumBitVector
| MagnumComplex
| MagnumCubicHermite
| MagnumDual
| MagnumFrustum
| MagnumHalf
| MagnumMatrix
| MagnumQuaternion
| MagnumRange
| MagnumUnit
| MagnumVectorColor.

(** Whether the class defines a [children] method (the base class has none,
    and gdb shows no children for a printer without the method). *)
Definition defines_children (c : printer_class) : bool :=
  match c with
  | MagnumTrack | MagnumBezier | MagnumBitVector | MagnumFrustum
  | MagnumMatrix => true
  | _ => false
  end.

(** Whether the class overrides [to_string] of the base class. *)
Definition overrides_to_string (c : printer_class) : bool :=
  match c with
  | MagnumTypePrinter | MagnumFrustum => false
  | _ => true
  end.

(** [MagnumTypePrinter.to_string]: the type of the value. *)
Definition base_to_string (ty : gdb_type) : string := type_text ty.

(** The template arguments as [MagnumBezier.__init__] extracts them:
    [name.split('<')[1].split('>')[0].split(',')]. *)
Definition template_arguments (name : string) : result (list string) :=
  inner <- Py.index (Py.split "<" name) 1 ;;
  args <- Py.index (Py.split ">" inner) 0 ;;
  Ok (Py.split "," args).

(** *** [MagnumResourceKey] *)
Module MagnumResourceKey.

(** [digest] is [val['_digest']], indexed by position. *)
Fixpoint loop (digest : Z -> Z) (i : Z) (n : nat) (key : string) : string :=
  match n with
  | O => key
  | S n' =>
      loop digest (i + 1) n'
           (key ++ Py.format_02x (Z.land (digest i) 255))
  end.

Definition to_string (digest : Z -> Z) : string :=
  let key := loop digest 0 8 EmptyString in
  Py.join EmptyString (Py.chars key).

End MagnumResourceKey.

(** *** [MagnumTrack] *)
Module MagnumTrack.

Section WithValue.
Context {V : Type}.

(** The value of a track: its type, its fields with their values (in the
    order of [val.type.fields()]) and [val['_data']['_size']]. *)
Record value : Type := {
  type : gdb_type;
  fields : list (string * V);
  data_size : Z
}.

Record Iterator : Type := {
  it_fields : list (string * V);
  index : Z
}.

Definition next (it : Iterator) : next_result (string * V) * Iterator :=
  let index0 := index it in
  let it' := {| it_fields := it_fields it; index := index0 + 1 |} in
  if index0 =? Z.of_nat (List.length (it_fields it)) then (StopIteration, it')
  else
    match list_get (it_fields it) index0 with
    | Raise e => (Failure e, it')
    | Ok (name, v) =>
        match Py.index (Py.split "_" name) 1 with
        | Raise e => (Failure e, it')
        | Ok part => (Yield ("[" ++ part ++ "]", v), it')
        end
    end.

Definition children (val : value) : Iterator :=
  {| it_fields := fields val; index := 0 |}.

Definition to_string (val : value) : string :=
  type_text (type val) ++ " with " ++ Py.str (data_size val) ++ " keyframes".

End WithValue.
Arguments value V : clear implicits.
Arguments Iterator V : clear implicits.

End MagnumTrack.

(** *** [MagnumBitVector] *)
Module MagnumBitVector.

(** [data] is [val['_data']], the bytes of the vector by position. *)
Record Iterator : Type := {
  data : Z -> Z;
  it_size : Z;
  count : Z
}.

Definition next (it : Iterator) : next_result (string * bool) * Iterator :=
  let count0 := count it in
  let it' := {| data := data it; it_size := it_size it; count := count0 + 1 |} in
  if count0 =? it_size it then (StopIteration, it')
  else
    match (q <- Py.truediv count0 8 ;; Py.int_of_float q) with
    | Raise e => (Failure e, it')
    | Ok byte =>
        (Yield ("[" ++ Py.str count0 ++ "]",
                negb (Z.land (Z.shiftr (data it byte) (count0 mod 8)) 1 =? 0)),
         it')
    end.

Record t : Type := {
  val_data : Z -> Z;
  size : Z
}.

Definition init (ty : gdb_type) (val_data : Z -> Z) : result t :=
  inner <- Py.index (Py.split "<" (stripped_name ty)) 1 ;;
  arg <- Py.index (Py.split ">" inner) 0 ;;
  size <- Py.int arg ;;
  Ok {| val_data := val_data; size := size |}.

Definition children (self : t) : Iterator :=
  {| data := val_data self; it_size := size self; count := 0 |}.

Definition to_string (self : t) : string :=
  "BitVector of size " ++ Py.str (size self).

End MagnumBitVector.

(** *** [MagnumFrustum] *)
Module MagnumFrustum.

Definition LABELS : list string :=
  ["left"; "right"; "bottom"; "top"; "near"; "far"].

Definition SIZE : Z := Z.of_nat (List.length LABELS).

Section WithValue.
Context {V : Type}.

Record Iterator : Type := {
  data : Z -> V;
  count : Z
}.

Definition next (it : Iterator) : next_result (string * V) * Iterator :=
  let count0 := count it in
  let it' := {| data := data it; count := count0 + 1 |} in
  if count0 =? SIZE then (StopIteration, it')
  else
    match list_get LABELS count0 with
    | Raise e => (Failure e, it')
    | Ok label => (Yield ("[" ++ label ++ "]", data it count0), it')
    end.

Definition children (val_data : Z -> V) : Iterator :=
  {| data := val_data; count := 0 |}.

End WithValue.
Arguments Iterator V : clear implicits.

(** The class has no [to_string] of its own: the base class's applies. *)
Definition to_string (ty : gdb_type) : string := base_to_string ty.

End MagnumFrustum.

(** *** [MagnumHalf] *)
Module MagnumHalf.

(** [byteorder] is [sys.byteorder], [val_data] is [int(val['_data'])]. *)
Definition to_string (byteorder : Py.byteorder) (val_data : Z)
  : result string :=
  data <- Py.to_bytes val_data 2 byteorder ;;
  x <- Py.unpack_e byteorder data ;;
  Ok (Py.float_repr x).

End MagnumHalf.

(** *** [MagnumMatrix] *)
Module MagnumMatrix.

Section WithValue.
Context {V : Type}.

Record Iterator : Type := {
  data : Z -> V;
  it_rows : Z;
  row : Z
}.

Definition next (it : Iterator) : next_result (string * V) * Iterator :=
  let row0 := row it in
  let it' := {| data := data it; it_rows := it_rows it; row := row0 + 1 |} in
  if row0 =? it_rows it then (StopIteration, it')
  else (Yield ("[" ++ Py.str row0 ++ "]", data it row0), it').

Record t : Type := {
  val_data : Z -> V;
  rows : Z;
  columns : Z
}.

(** The first attempt at the row count, for [(Rectangular)Matrix]. *)
Definition rows_from_arguments (name : string) : result Z :=
  inner <- Py.index (Py.split "<" name) 1 ;;
  arg <- Py.index (Py.split "," inner) 0 ;;
  Py.int (Py.strip arg).

(** The [except ValueError] branch, for [Matrix{3,4}]. *)
Definition rows_from_name (name : string) : result Z :=
  head <- Py.index (Py.split "<" name) 0 ;;
  c <- Py.last_char head ;;
  Py.int c.

Definition init (ty : gdb_type) (val_data : Z -> V) : result t :=
  let name := stripped_name ty in
  rows <- match rows_from_arguments name with
          | Raise ValueError => rows_from_name name
          | r => r
          end ;;
  columns <- (if Py.contains "RectangularMatrix" name then
                inner <- Py.index (Py.split "<" name) 1 ;;
                arg <- Py.index (Py.split "," inner) 1 ;;
                Py.int (Py.strip arg)
              else Ok rows) ;;
  Ok {| val_data := val_data; rows := rows; columns := columns |}.

Definition children (self : t) : Iterator :=
  {| data := val_data self; it_rows := rows self; row := 0 |}.

Definition to_string (self : t) : string :=
  "Matrix with " ++ Py.str (rows self) ++ " rows and "
  ++ Py.str (columns self) ++ " columns".

End WithValue.
Arguments Iterator V : clear implicits.
Arguments t V : clear implicits.

End MagnumMatrix.

(** *** [MagnumBezier] *)
Module MagnumBezier.

Section WithValue.
Context {V : Type}.

Record Iterator : Type := {
  data : Z -> V;
  it_order : Z;
  count : Z
}.

Definition next (it : Iterator) : next_result (string * V) * Iterator :=
  let count0 := count it in
  let it' := {| data := data it; it_order := it_order it;
                count := count0 + 1 |} in
  if count0 =? it_order it + 1 then (StopIteration, it')
  else (Yield ("[" ++ Py.str count0 ++ "]", data it count0), it').

Record t : Type := {
  val_data : Z -> V;
  order : Z;
  dimensions : Z
}.

Definition init (ty : gdb_type) (val_data : Z -> V) : result t :=
  arguments <- template_arguments (stripped_name ty) ;;
  a0 <- Py.index arguments 0 ;;
  order <- Py.int (Py.strip a0) ;;
  a1 <- Py.index arguments 1 ;;
  dimensions <- Py.int (Py.strip a1) ;;
  Ok {| val_data := val_data; order := order; dimensions := dimensions |}.

Definition children (self : t) : Iterator :=
  {| data := val_data self; it_order := order self; count := 0 |}.

End WithValue.
Arguments Iterator V : clear implicits.
Arguments t V : clear implicits.

End MagnumBezier.

(** ** The registry and its registration *)

(** A sub-printer of a [gdb.printing.RegexpCollectionPrettyPrinter]. *)
Record subprinter : Type := {
  sp_name : string;
  regexp : string;
  gen_printer : printer_class
}.

Record RegexpCollectionPrettyPrinter : Type := {
  name : string;
  enabled : bool;
  subprinters : list subprinter
}.

(** [gdb.printing.RegexpCollectionPrettyPrinter(name)]. *)
Definition new_collection (name : string) : RegexpCollectionPrettyPrinter :=
  {| name := name; enabled := true; subprinters := [] |}.

(** [collection.add_printer(name, regexp, gen_printer)] appends. *)
Definition add_printer (sp_name regexp : string) (gen : printer_class)
    (c : RegexpCollectionPrettyPrinter) : RegexpCollectionPrettyPrinter :=
  {| name := name c; enabled := enabled c;
     subprinters := subprinters c
       ++ [{| sp_name := sp_name; regexp := regexp; gen_printer := gen |}] |}.

(** The calls of [add_printer] in [build_magnum_printer], in order. *)
Definition bindings : list (string * string * printer_class) :=
  [ ("CompressedImage", "^Magnum::CompressedImage<\d+, .*>$", MagnumImage);
    ("CompressedImageView", "^Magnum::CompressedImageView<\d+, .*>$",
     MagnumImage);
    ("Image", "^Magnum::Image<\d+, .*>$", MagnumImage);
    ("ImageView", "^Magnum::ImageView<\d+, .*>$", MagnumImage);
    ("Resource", "^Magnum::Resource<.*, .*>$", MagnumResource);
    ("ResourceKey", "^Magnum::ResourceKey$", MagnumResourceKey);
    ("Timeline", "^Magnum::Timeline$", MagnumTimeline);
    ("Animation::Track", "^Magnum::Animation::Track<.*>$", MagnumTrack);
    ("Math::Bezier", "^Magnum::Math::Bezier<\d+, \d+, .*>$", MagnumBezier);
    ("Math::BitVector", "^Magnum::Math::BitVector<\d+>$", MagnumBitVector);
    ("Math::Color3", "^Magnum::Math::Color3<.*>$", MagnumVectorColor);
    ("Math::Color4", "^Magnum::Math::Color4<.*>$", MagnumVectorColor);
    ("Math::Complex", "^Magnum::Math::Complex<.*>$", MagnumComplex);
    ("Math::CubicHermite", "^Magnum::Math::CubicHermite<.*>$",
     MagnumCubicHermite);
    ("Math::Deg", "^Magnum::Math::Deg<.*>$", MagnumAngle);
    ("Math::DualComplex", "^Magnum::Math::DualComplex<.*>$", MagnumDual);
    ("Math::DualQuaternion", "^Magnum::Math::DualQuaternion<.*>$",
     MagnumDual);
    ("Math::Frustum", "^Magnum::Math::Frustum<.*>$", MagnumFrustum);
    ("Math::Half", "^Magnum::Math::Half$", MagnumHalf);
    ("Math::Matrix", "^Magnum::Math::Matrix<\d+, .*>$", MagnumMatrix);
    ("Math::Matrix3", "^Magnum::Math::Matrix3<.*>$", MagnumMatrix);
    ("Math::Matrix4", "^Magnum::Math::Matrix4<.*>$", MagnumMatrix);
    ("Math::Quaternion", "^Magnum::Math::Quaternion<.*>$", MagnumQuaternion);
    ("Math::Rad", "^Magnum::Math::Rad<.*>$", MagnumAngle);
    ("Math::Range", "^Magnum::Math::Range<\d+, .*>$", MagnumRange);
    ("Math::Range2D", "^Magnum::Math::Range2D<.*>$", MagnumRange);
    ("Math::Range3D", "^Magnum::Math::Range3D<.*>$", MagnumRange);
    ("Math::RectangularMatrix",
     "^Magnum::Math::RectangularMatrix<\d+, \d+, .*>$", MagnumMatrix);
    ("Math::Unit", "^Magnum::Math::Unit<.*>$", MagnumUnit);
    ("Math::Vector", "^Magnum::Math::Vector<\d+,.*>$", MagnumVectorColor);
    ("Math::Vector2", "^Magnum::Math::Vector2<.*>$", MagnumVectorColor);
    ("Math::Vector3", "^Magnum::Math::Vector3<.*>$", MagnumVectorColor);
    ("Math::Vector4", "^Magnum::Math::Vector4<.*>$", MagnumVectorColor) ].

(** The collection that [build_magnum_printer] makes: a new collection
    named ["Magnum"] to which the bindings are added one by one. *)
Definition magnum_registry : RegexpCollectionPrettyPrinter :=
  fold_left (fun c '(n, r, g) => add_printer n r g c)
            bindings (new_collection "Magnum").

(** What [register_magnum_printers] can be given: the [gdb] module itself,
    an object file or a program space. *)
Inductive target : Type :=
| Gdb
| Objfile (filename : string)
| Progspace (filename : string).

Section Registration.

(** The host: its state, and [gdb.printing.register_pretty_printer(obj,
    printer)], which receives whatever the global holds. *)
Variable Host : Type.
Variable register_pretty_printer :
  target -> option RegexpCollectionPrettyPrinter -> Host -> result unit * Host.

(** The module-level global and the host's state. *)
Record state : Type := {
  magnum_printers : option RegexpCollectionPrettyPrinter;
  host : Host
}.

Definition build_magnum_printer (s : state) : state :=
  match magnum_printers s with
  | Some _ => s
  | None => {| magnum_printers := Some magnum_registry; host := host s |}
  end.

Definition register_magnum_printers (obj : option target) (s : state)
  : result unit * state :=
  let obj := match obj with None => Gdb | Some o => o end in
  let s := match magnum_printers s with
           | None => build_magnum_printer s
           | Some _ => s
           end in
  let '(r, h) := register_pretty_printer obj (magnum_printers s) (host s) in
  (r, {| magnum_printers := magnum_printers s; host := h |}).

End Registration.

Arguments magnum_printers {Host} s.
Arguments host {Host} s.
Arguments build_magnum_printer {Host} s.
Arguments register_magnum_printers {Host} register_pretty_printer obj s.

(** *** The host as gdb implements it

    [gdb.printing.register_pretty_printer] of gdb's Python library, with its
    default [replace=False]: a printer whose name is already in
    [obj.pretty_printers] is refused with [RuntimeError], any other is put at
    the front of the list. *)
Module GdbHost.

(** An entry of a [pretty_printers] list: a collection, or a printer of
    someone else with its [name] attribute if it has one. *)
Inductive printer : Type :=
| Collection (c : RegexpCollectionPrettyPrinter)
| Other (name : option string).

Definition printer_name (p : printer) : option string :=
  match p with
  | Collection c => Some (name c)
  | Other n => n
  end.

(** [obj.pretty_printers] for every [obj]. *)
Definition t : Type := target -> list printer.

Definition target_eqb (a b : target) : bool :=
  match a, b with
  | Gdb, Gdb => true
  | Objfile x, Objfile y => String.eqb x y
  | Progspace x, Progspace y => String.eqb x y
  | _, _ => false
  end.

Definition has_name (n : string) (p : printer) : bool :=
  match printer_name p with
  | Some m => String.eqb m n
  | None => false
  end.

Definition register_pretty_printer (obj : target)
    (pp : option RegexpCollectionPrettyPrinter) (h : t) : result unit * t :=
  match pp with
  | None => (Raise TypeError, h)
  | Some c =>
      if Py.contains ";" (name c) then (Raise ValueError, h)
      else if existsb (has_name (name c)) (h obj) then
        (Raise (RuntimeError
                  ("pretty-printer already registered: " ++ name c)), h)
      else
        (Ok tt,
         fun o => if target_eqb o obj then Collection c :: h o else h o)
  end.

(** A session in which nothing is registered yet. *)
Definition empty : t := fun _ => [].

End GdbHost.

(** *** [MagnumVectorColor] *)
Module MagnumVectorColor.

(** [val_data i] is [str(val['_data'][i])], the text of component [i]. *)
Record t : Type := {
  val_data : Z -> string;
  dimensions : Z
}.

(** The first attempt at the dimension count, for [Vector2/3/4] and
    [Color3/4]. *)
Definition dimensions_from_name (name : string) : result Z :=
  head <- Py.index (Py.split "<" name) 0 ;;
  c <- Py.last_char head ;;
  Py.int c.

(** The [except ValueError] branch, for [Vector<dimensions, T>]. *)
Definition dimensions_from_arguments (name : string) : result Z :=
  inner <- Py.index (Py.split "<" name) 1 ;;
  arg <- Py.index (Py.split "," inner) 0 ;;
  Py.int (Py.strip arg).

Definition init (ty : gdb_type) (val_data : Z -> string) : result t :=
  let name := stripped_name ty in
  dimensions <- match dimensions_from_name name with
                | Raise ValueError => dimensions_from_arguments name
                | r => r
                end ;;
  Ok {| val_data := val_data; dimensions := dimensions |}.

(** The [for i in range(...)] loop, [n] iterations from [i] on. *)
Fixpoint loop (val_data : Z -> string) (i : Z) (n : nat)
    (components : list string) : list string :=
  match n with
  | O => components
  | S n' => loop val_data (i + 1) n' (components ++ [val_data i])
  end.

Definition to_string (self : t) : string :=
  let components :=
    loop (val_data self) 0 (Z.to_nat (dimensions self)) [] in
  "(" ++ Py.join ", " components ++ ")".

End MagnumVectorColor.

(** ** The patterns of the registry

    The regular expressions of [build_magnum_printer] use a small part of
    Python's [re]: a pattern is [^], a sequence of items and [$]; an item is
    a character, [\d] or [.], possibly followed by [*] or [+]. *)
Module Re.

Inductive charset : Type :=
| Lit (c : ascii)
| Digit
| AnyChar.

Inductive quantifier : Type := One | Star | Plus.

Definition item : Type := (charset * quantifier)%type.

Definition newline : ascii := ascii_of_nat 10.

Definition is_digit (c : ascii) : bool :=
  match Py.digit_value c with
  | Some _ => true
  | None => false
  end.

(** [.] matches any character but a newline, [\d] a decimal digit. *)
Definition sat (cs : charset) (c : ascii) : bool :=
  match cs with
  | Lit a => Ascii.eqb c a
  | Digit => is_digit c
  | AnyChar => negb (Ascii.eqb c newline)
  end.

(** The characters that are not themselves in a pattern. *)
Definition special (c : ascii) : bool := Py.occurs c "\^$.|?*+()[]{}".

(** The items of a pattern after its [^], up to the final [$]; [None] for a
    pattern outside the part of the syntax described above. *)
Fixpoint parse_items (s : string) : option (list item) :=
  match s with
  | EmptyString => None
  | String c r =>
      if Ascii.eqb c "$" then
        match r with
        | EmptyString => Some []
        | String _ _ => None
        end
      else
        if Ascii.eqb c "." then
          match r with
          | String q r' =>
              if Ascii.eqb q "*" then
                option_map (cons (AnyChar, Star)) (parse_items r')
              else if Ascii.eqb q "+" then
                option_map (cons (AnyChar, Plus)) (parse_items r')
              else option_map (cons (AnyChar, One)) (parse_items r)
          | EmptyString => None
          end
        else if Ascii.eqb c "\" then
          match r with
          | String d r1 =>
              if Ascii.eqb d "d" then
                match r1 with
                | String q r' =>
                    if Ascii.eqb q "*" then
                      option_map (cons (Digit, Star)) (parse_items r')
                    else if Ascii.eqb q "+" then
                      option_map (cons (Digit, Plus)) (parse_items r')
                    else option_map (cons (Digit, One)) (parse_items r1)
                | EmptyString => None
                end
              else None
          | EmptyString => None
          end
        else if special c then None
        else
          match r with
          | String q r' =>
              if Ascii.eqb q "*" then
                option_map (cons (Lit c, Star)) (parse_items r')
              else if Ascii.eqb q "+" then
                option_map (cons (Lit c, Plus)) (parse_items r')
              else option_map (cons (Lit c, One)) (parse_items r)
          | EmptyString => None
          end
  end.

Definition parse (pattern : string) : option (list item) :=
  match pattern with
  | String c r => if Ascii.eqb c "^" then parse_items r else None
  | EmptyString => None
  end.

(** [$] matches at the end of the string and before a newline that ends
    it. *)
Definition at_end (s : string) : bool :=
  match s with
  | EmptyString => true
  | String c EmptyString => Ascii.eqb c newline
  | _ => false
  end.

(** Whether the items match the whole of [s] (up to what [$] allows). *)
Fixpoint matches (items : list item) : string -> bool :=
  match items with
  | [] => at_end
  | (cs, One) :: rest =>
      fun s =>
        match s with
        | String c s' => sat cs c && matches rest s'
        | EmptyString => false
        end
  | (cs, Star) :: rest =>
      fix star (s : string) : bool :=
        matches rest s
        || match s with
           | String c s' => sat cs c && star s'
           | EmptyString => false
           end
  | (cs, Plus) :: rest =>
      fun s =>
        match s with
        | String c s' =>
            sat cs c
            && (fix star (s : string) : bool :=
                  matches rest s
                  || match s with
                     | String c s' => sat cs c && star s'
                     | EmptyString => false
                     end) s'
        | EmptyString => false
        end
  end.

(** [re.compile(pattern).search(s)] as a truth value, for a pattern that
    starts with [^]. *)
Definition search (pattern s : string) : option bool :=
  option_map (fun items => matches items s) (parse pattern).

End Re.

(** [RegexpCollectionPrettyPrinter.__call__] of gdb's library, on the name of
    the type of the value: the class of the first sub-printer whose pattern
    is found in the name, if there is one (sub-printers are enabled unless
    the user disables them). *)
Fixpoint lookup (subprinters : list subprinter) (typename : string)
  : option printer_class :=
  match subprinters with
  | [] => None
  | sp :: rest =>
      match Re.search (regexp sp) typename with
      | Some true => Some (gen_printer sp)
      | _ => lookup rest typename
      end
  end.

(** ** Vocabulary of the properties *)

(** A lowercase hexadecimal digit. *)
Definition is_lower_hex (c : ascii) : bool := Py.occurs c "0123456789abcdef".

(** The state of a session before [printers.py] has registered anything. *)
Definition initial : state GdbHost.t :=
  {| magnum_printers := None; host := GdbHost.empty |}.



(** The leading characters of a pattern that stand for themselves. *)
Fixpoint literal_prefix (items : list Re.item) : string :=
  match items with
  | (Re.Lit c, Re.One) :: rest => String c (literal_prefix rest)
  | _ => EmptyString
  end.

(** Neither string starts with the other. *)
Definition incomparable (a b : string) : bool :=
  negb (String.prefix a b) && negb (String.prefix b a).

Fixpoint pairwise_incomparable (l : list string) : bool :=
  match l with
  | [] => true
  | a :: rest => forallb (incomparable a) rest && pairwise_incomparable rest
  end.

(** The literal prefix of the pattern of a sub-printer. *)
Definition subprinter_prefix (sp : subprinter) : string :=
  match Re.parse (regexp sp) with
  | Some items => literal_prefix items
  | None => EmptyString
  end.

(** The iterator after [n] calls of [__next__]. *)
Fixpoint after_calls {S A : Type} (next : S -> next_result A * S)
    (n : nat) (it : S) : S :=
  match n with
  | O => it
  | S n' => after_calls next n' (snd (next it))
  end.

(** The number that a string of lowercase hexadecimal digits denotes. *)
Definition hex_value (c : ascii) : Z :=
  let n := Z.of_nat (nat_of_ascii c) in
  if (48 <=? n) && (n <=? 57) then n - 48 else n - 87.

Fixpoint unhex_from (acc : Z) (s : string) : Z :=
  match s with
  | EmptyString => acc
  | String c s' => unhex_from (16 * acc + hex_value c) s'
  end.

Definition unhex (s : string) : Z := unhex_from 0 s.

(** Whether [o] is one of [objs]. *)
Definition target_mem (o : target) (objs : list target) : bool :=
  existsb (GdbHost.target_eqb o) objs.

(** Calling [register_magnum_printers] for each object of a list in turn:
    the results of the calls and the final state. *)
Fixpoint register_all (objs : list target) (s : state GdbHost.t)
  : list (result unit) * state GdbHost.t :=
  match objs with
  | [] => ([], s)
  | o :: rest =>
      let '(r, s1) :=
        register_magnum_printers GdbHost.register_pretty_printer (Some o) s in
      let '(rs, s2) := register_all rest s1 in
      (r :: rs, s2)
  end.

(** * Properties *)

(** ** The built-ins on small inputs *)

Example split_ex1 : Py.split "<" "a<b<c" = ["a"; "b"; "c"].
Proof. reflexivity. Qed.

Example split_ex2 : Py.split "," "" = [""].
Proof. reflexivity. Qed.

Example int_ex1 : Py.int " 12 " = Ok 12 /\ Py.int "-1_0" = Ok (-10).
Proof. split; reflexivity. Qed.

Example int_ex2 :
  Py.int "float>" = Raise ValueError /\ Py.int "1__0" = Raise ValueError
  /\ Py.int "- 5" = Raise ValueError /\ Py.int "" = Raise ValueError.
Proof. repeat split; reflexivity. Qed.

Example str_ex1 : Py.str 0 = "0" /\ Py.str 120 = "120" /\ Py.str (-7) = "-7".
Proof. repeat split; reflexivity. Qed.

Example format_02x_ex1 :
  Py.format_02x 171 = "ab" /\ Py.format_02x 1 = "01"
  /\ Py.format_02x 0 = "00" /\ Py.format_02x 255 = "ff".
Proof. repeat split; reflexivity. Qed.

Example float_repr_ex1 :
  map (fun bits => Py.float_repr (Py.binary16 bits))
      [13653; 1; 1024; 31743; 64512; 32256; 32768]
  = ["0.333251953125"; "5.960464477539063e-08"; "6.103515625e-05";
     "65504.0"; "-inf"; "nan"; "-0.0"].
Proof. vm_compute. reflexivity. Qed.

Example truediv_ex1 :
  Py.truediv 7 8 = Ok (Py.Finite false (7 * 2 ^ 50) (-53))
  /\ (q <- Py.truediv (2 ^ 56 + 8) 8 ;; Py.int_of_float q) = Ok (2 ^ 53).
Proof. split; vm_compute; reflexivity. Qed.

(** ** Splitting *)

Section Split.

Variable sep : ascii.

Lemma split_free (p : string) :
  Py.occurs sep p = false -> Py.split sep p = [p].
Proof.
  induction p as [|c p IH]; simpl; [reflexivity|].
  intros H. apply orb_false_iff in H. destruct H as [Hc Hp].
  rewrite Hc, (IH Hp). reflexivity.
Qed.

Lemma split_app_sep (p rest : string) :
  Py.occurs sep p = false ->
  Py.split sep (p ++ String sep rest) = p :: Py.split sep rest.
Proof.
  induction p as [|c p IH]; simpl.
  - intros _. rewrite Ascii.eqb_refl. reflexivity.
  - intros H. apply orb_false_iff in H. destruct H as [Hc Hp].
    rewrite Hc, (IH Hp). reflexivity.
Qed.

Lemma split_join (parts : list string) :
  parts <> [] ->
  Forall (fun p => Py.occurs sep p = false) parts ->
  Py.split sep (Py.join (String sep EmptyString) parts) = parts.
Proof.
  induction parts as [|p ps IH]; [congruence|].
  intros _ Hall. inversion Hall as [|? ? Hp Hps]; subst.
  destruct ps as [|q qs].
  - simpl. apply split_free, Hp.
  - change (Py.join (String sep EmptyString) (p :: q :: qs))
      with (p ++ String sep (Py.join (String sep EmptyString) (q :: qs))).
    rewrite (split_app_sep _ _ Hp). f_equal. apply IH; [congruence|exact Hps].
Qed.


End Split.

Lemma occurs_app (c : ascii) (a b : string) :
  Py.occurs c (a ++ b) = Py.occurs c a || Py.occurs c b.
Proof.
  induction a as [|x a IH]; simpl; [reflexivity|].
  rewrite IH. apply orb_assoc.
Qed.

Lemma occurs_join (c sep : ascii) (parts : list string) :
  c <> sep ->
  Forall (fun p => Py.occurs c p = false) parts ->
  Py.occurs c (Py.join (String sep EmptyString) parts) = false.
Proof.
  intros Hne. induction parts as [|p ps IH]; intros Hall; [reflexivity|].
  inversion Hall as [|? ? Hp Hps]; subst.
  destruct ps as [|q qs]; [exact Hp|].
  change (Py.join (String sep EmptyString) (p :: q :: qs))
    with (p ++ String sep (Py.join (String sep EmptyString) (q :: qs))).
  rewrite occurs_app, Hp. specialize (IH Hps).
  set (J := Py.join (String sep EmptyString) (q :: qs)) in *.
  simpl. rewrite IH, orb_false_r.
  apply Ascii.eqb_neq. congruence.
Qed.

(** The extraction on a signature without nested brackets. *)
Lemma template_arguments_flat (name rest : string) (params : list string) :
  Py.occurs "<" name = false ->
  params <> [] ->
  Forall (fun p => Py.occurs "<" p = false) params ->
  Forall (fun p => Py.occurs ">" p = false) params ->
  Forall (fun p => Py.occurs "," p = false) params ->
  template_arguments (name ++ "<" ++ Py.join "," params ++ ">" ++ rest)
  = Ok params.
Proof.
  intros Hname Hne Hlt Hgt Hcomma.
  unfold template_arguments.
  change (name ++ "<" ++ Py.join "," params ++ ">" ++ rest)
    with (name ++ String "<" (Py.join "," params ++ ">" ++ rest)).
  rewrite (split_app_sep _ _ _ Hname).
  remember (Py.join "," params) as args eqn:Hargs.
  assert (Hargs_lt : Py.occurs "<" args = false).
  { subst args. apply occurs_join; [discriminate|exact Hlt]. }
  assert (Hargs_gt : Py.occurs ">" args = false).
  { subst args. apply occurs_join; [discriminate|exact Hgt]. }
  (* the piece after the first "<" starts with [args ++ ">"] *)
  assert (Hinner : exists tail more,
             Py.split "<" (args ++ ">" ++ rest) = (args ++ String ">" tail) :: more).
  { clear - Hargs_lt. induction args as [|c a IH]; simpl.
    - destruct (Py.split "<" rest) as [|t m] eqn:E.
      + exfalso. destruct rest; simpl in E; [discriminate|].
        destruct (Ascii.eqb a "<"); [discriminate|].
        destruct (Py.split "<" rest); discriminate.
      + exists t, m. reflexivity.
    - simpl in Hargs_lt. apply orb_false_iff in Hargs_lt.
      destruct Hargs_lt as [Hc Ha]. rewrite Hc.
      destruct (IH Ha) as (t & m & E). simpl in E. rewrite E.
      exists t, m. reflexivity. }
  destruct Hinner as (tail & more & E). rewrite E. simpl.
  rewrite (split_app_sep _ _ _ Hargs_gt). simpl.
  subst args. f_equal. apply split_join; assumption.
Qed.

(** ** C1: extraction of the template arguments *)

(** C1, as the code has it: for a signature [name<p1,...,pN>] whose
    parameters contain no bracket and no comma of their own, the extraction
    returns exactly the N parameter strings, in left-to-right order (white
    space included, it is stripped before a parameter is read as an integer).
    There is no tracking of nesting depth: the text is cut at the second
    opening bracket, so that ["Matrix<3, Vector<2, float>>"] gives ["3"] and
    [" Vector"]. *)
Theorem template_arguments_without_nesting
    (name rest : string) (params : list string) :
  Py.occurs "<" name = false ->
  params <> [] ->
  Forall (fun p => Py.occurs "<" p = false) params ->
  Forall (fun p => Py.occurs ">" p = false) params ->
  Forall (fun p => Py.occurs "," p = false) params ->
  template_arguments (name ++ "<" ++ Py.join "," params ++ ">" ++ rest)
    = Ok params
  /\ template_arguments "Matrix<3, Vector<2, float>>" = Ok ["3"; " Vector"].
Proof.
  intros Hname Hne Hlt Hgt Hcomma. split.
  - apply template_arguments_flat; assumption.
  - reflexivity.
Qed.

Lemma template_arguments_without_nesting_witness :
  template_arguments "Bezier<2, 3, float>" = Ok ["2"; " 3"; " float"].
Proof.
  refine (proj1 (template_arguments_without_nesting
                   "Bezier" "" ["2"; " 3"; " float"] _ _ _ _ _)).
  - reflexivity.
  - discriminate.
  - repeat constructor.
  - repeat constructor.
  - repeat constructor.
Defined.

(** C1 as stated fails: the nested parameter of the specification's own
    example is not returned whole, and a nested first parameter changes the
    number of parameters. *)
Lemma template_arguments_nested_counterexample :
  (exists got,
      template_arguments "Matrix<3, Vector<2, float>>" = Ok got
      /\ map Py.strip got <> ["3"; "Vector<2, float>"])
  /\ (exists got,
         template_arguments "Pair<Vector<2, float>, 3>" = Ok got
         /\ List.length got <> 2%nat).
Proof.
  split.
  - exists ["3"; " Vector"]. split; [reflexivity|discriminate].
  - exists ["Vector"]. split; [reflexivity|discriminate].
Qed.

(** ** Iterators that count *)

Section Counting.

Context {S A : Type}.
Variable next : S -> next_result A * S.
Variable at_count : Z -> S.
Variable child : Z -> A.
Variable bound : Z.

Hypothesis next_yields :
  forall c, 0 <= c < bound ->
            next (at_count c) = (Yield (child c), at_count (c + 1)).
Hypothesis next_stops : fst (next (at_count bound)) = StopIteration.

(** Consuming the iterator from count [c] gives the children [c .. bound-1]
    as soon as there is fuel for [bound - c + 1] calls. *)
Lemma consume_counting (n : nat) :
  forall (c : Z) (fuel : nat),
    0 <= c -> c + Z.of_nat n = bound -> (n < fuel)%nat ->
    consume next fuel (at_count c) = Some (Ok (map child (zrange c n))).
Proof.
  induction n as [|n IH]; intros c fuel Hc Hb Hfuel.
  - destruct fuel as [|fuel]; [lia|]. simpl.
    replace c with bound by lia.
    pose proof next_stops as Hstop.
    destruct (next (at_count bound)) as [r s'].
    simpl in Hstop. subst r. reflexivity.
  - destruct fuel as [|fuel]; [lia|]. simpl.
    rewrite next_yields by lia.
    rewrite (IH (c + 1) fuel) by lia. reflexivity.
Qed.

End Counting.

Lemma zrange_length (n : nat) : forall start, List.length (zrange start n) = n.
Proof. induction n; intros; simpl; auto. Qed.

Lemma zrange_In (n : nat) :
  forall start x, start <= x < start + Z.of_nat n -> In x (zrange start n).
Proof.
  induction n as [|n IH]; intros start x H; [lia|].
  simpl. destruct (Z.eq_dec start x); [left; assumption|].
  right. apply IH. lia.
Qed.

(** ** C2: the children of a bit vector *)

Lemma round_half_even_exact (c sh : Z) :
  0 <= c -> 3 <= sh ->
  Py.round_half_even (c * 2 ^ sh) 8 = c * 2 ^ (sh - 3).
Proof.
  intros Hc Hsh. unfold Py.round_half_even.
  assert (E : c * 2 ^ sh = c * 2 ^ (sh - 3) * 8).
  { replace sh with ((sh - 3) + 3) at 1 by lia.
    rewrite Z.pow_add_r by lia. change (2 ^ 3) with 8. ring. }
  rewrite E, Z.div_mul, Z.mod_mul by lia. reflexivity.
Qed.

Lemma shifted_div (c sh : Z) :
  3 <= sh -> c * 2 ^ (sh - 3) / 2 ^ sh = c / 8.
Proof.
  intros Hsh.
  replace (2 ^ sh) with (2 ^ (sh - 3) * 8).
  - rewrite (Z.mul_comm c). apply Z.div_mul_cancel_l; [lia|].
    apply Z.pow_nonzero; lia.
  - replace sh with ((sh - 3) + 3) at 2 by lia.
    rewrite Z.pow_add_r by lia. reflexivity.
Qed.

(** [int(count/8)] is the integer quotient as long as [count] is exactly a
    float, that is below [2^53]. *)
Lemma int_truediv_8 (c : Z) :
  0 <= c < 2 ^ 53 ->
  (q <- Py.truediv c 8 ;; Py.int_of_float q) = Ok (c / 8).
Proof.
  intros [Hc0 Hc].
  destruct (Z.eq_dec c 0) as [->|Hne]; [reflexivity|].
  assert (Hlog : 0 <= Z.log2 c < 53).
  { split; [apply Z.log2_nonneg|]. apply Z.log2_lt_pow2; lia. }
  unfold Py.truediv.
  change (8 =? 0) with false. change (8 <? 0) with false.
  change (Z.abs 8) with 8. change (Z.log2 8) with 3.
  rewrite (Z.abs_eq c) by lia.
  replace (c =? 0) with false by (symmetry; apply Z.eqb_neq; exact Hne).
  cbv zeta.
  set (p0 := Z.log2 c - 3).
  set (reaches := if 0 <=? p0 then 8 * 2 ^ p0 <=? c else 8 <=? c * 2 ^ (- p0)).
  set (p := if reaches then p0 else p0 - 1).
  assert (Hp : -4 <= p <= 49) by (subst p p0; destruct reaches; lia).
  clearbody p. clear reaches.
  rewrite Z.min_l by lia.
  replace (0 <=? 52 - p) with true by (symmetry; apply Z.leb_le; lia).
  rewrite round_half_even_exact by lia.
  replace (1024 <=? p) with false by (symmetry; apply Z.leb_gt; lia).
  replace (p =? 1023) with false by (symmetry; apply Z.eqb_neq; lia).
  cbn [orb andb bind Py.int_of_float].
  replace (0 <=? - (52 - p)) with false by (symmetry; apply Z.leb_gt; lia).
  rewrite Z.opp_involutive.
  replace (c <? 0) with false by (symmetry; apply Z.ltb_ge; lia).
  cbn [xorb]. f_equal. apply shifted_div. lia.
Qed.

(** C2: the iterator of a bit vector of size [N] yields exactly the [N]
    children [[0]] .. [[N-1]] in order, child [i] being byte [i / 8] of the
    data shifted right by [i mod 8] and masked with 1; for size 10 and byte 0
    equal to [0b00000101] these are true, false, true, five times false, and
    bits 0 and 1 of byte 1.  (Sizes are taken up to [2^53]: the byte index is
    computed through a float.) *)
Theorem bitvector_children (val_data : Z -> Z) (N : Z) :
  0 <= N <= 2 ^ 53 ->
  let self := {| MagnumBitVector.val_data := val_data;
                 MagnumBitVector.size := N |} in
  consume MagnumBitVector.next (S (Z.to_nat N)) (MagnumBitVector.children self)
  = Some (Ok (map (fun i =>
                     ("[" ++ Py.str i ++ "]",
                      negb (Z.land (Z.shiftr (val_data (i / 8)) (i mod 8)) 1
                            =? 0)))
                  (zrange 0 (Z.to_nat N))))
  /\ (N = 10 -> val_data 0 = 5 ->
      consume MagnumBitVector.next 11 (MagnumBitVector.children self)
      = Some (Ok [("[0]", true); ("[1]", false); ("[2]", true);
                  ("[3]", false); ("[4]", false); ("[5]", false);
                  ("[6]", false); ("[7]", false);
                  ("[8]", Z.testbit (val_data 1) 0);
                  ("[9]", Z.testbit (val_data 1) 1)])).
Proof.
  intros HN self.
  assert (General : forall fuel, (Z.to_nat N < fuel)%nat ->
    consume MagnumBitVector.next fuel (MagnumBitVector.children self)
    = Some (Ok (map (fun i =>
                       ("[" ++ Py.str i ++ "]",
                        negb (Z.land (Z.shiftr (val_data (i / 8)) (i mod 8)) 1
                              =? 0)))
                    (zrange 0 (Z.to_nat N))))).
  { intros fuel Hfuel.
    apply (consume_counting MagnumBitVector.next
             (fun c => {| MagnumBitVector.data := val_data;
                          MagnumBitVector.it_size := N;
                          MagnumBitVector.count := c |})
             _ N); try lia.
    - intros c Hc. unfold MagnumBitVector.next.
      cbn [MagnumBitVector.count MagnumBitVector.it_size MagnumBitVector.data].
      replace (c =? N) with false by (symmetry; apply Z.eqb_neq; lia).
      rewrite int_truediv_8 by lia. reflexivity.
    - unfold MagnumBitVector.next.
      cbn [MagnumBitVector.count MagnumBitVector.it_size].
      rewrite Z.eqb_refl. reflexivity. }
  split.
  - apply General. lia.
  - intros -> H0. rewrite General by (simpl; lia).
    change (Z.to_nat 10) with 10%nat.
    cbn [zrange map Z.add Pos.add Pos.succ].
    change (0 / 8) with 0. change (1 / 8) with 0. change (2 / 8) with 0.
    change (3 / 8) with 0. change (4 / 8) with 0. change (5 / 8) with 0.
    change (6 / 8) with 0. change (7 / 8) with 0.
    change (8 / 8) with 1. change (9 / 8) with 1.
    rewrite H0.
    assert (Hbit : forall b k, 0 <= k ->
               negb (Z.land (Z.shiftr b k) 1 =? 0) = Z.testbit b k).
    { intros b k Hk. rewrite Z.land_ones with (n := 1) by lia.
      change (2 ^ 1) with 2. rewrite <- Z.bit0_mod, Z.shiftr_spec by lia.
      rewrite Z.add_0_l.
      destruct (Z.testbit b k); reflexivity. }
    rewrite (Hbit (val_data 1) (8 mod 8)), (Hbit (val_data 1) (9 mod 8))
      by (vm_compute; discriminate).
    reflexivity.
Qed.

(** ** C3 and C9: matrices *)

Lemma matrix_children {V : Type} (self : MagnumMatrix.t V) (n : nat) :
  MagnumMatrix.rows self = Z.of_nat n ->
  forall fuel, (n < fuel)%nat ->
  consume MagnumMatrix.next fuel (MagnumMatrix.children self)
  = Some (Ok (map (fun i => ("[" ++ Py.str i ++ "]",
                             MagnumMatrix.val_data self i))
                  (zrange 0 n))).
Proof.
  intros Hrows fuel Hfuel.
  apply (consume_counting MagnumMatrix.next
           (fun c => {| MagnumMatrix.data := MagnumMatrix.val_data self;
                        MagnumMatrix.it_rows := MagnumMatrix.rows self;
                        MagnumMatrix.row := c |})
           _ (MagnumMatrix.rows self)); try lia.
  - intros c Hc. unfold MagnumMatrix.next.
    cbn [MagnumMatrix.row MagnumMatrix.it_rows MagnumMatrix.data].
    replace (c =? MagnumMatrix.rows self) with false
      by (symmetry; apply Z.eqb_neq; lia).
    reflexivity.
  - unfold MagnumMatrix.next.
    cbn [MagnumMatrix.row MagnumMatrix.it_rows].
    rewrite Z.eqb_refl. reflexivity.
Qed.

(** C3: a matrix whose type is [RectangularMatrix<2, 3, float>] (bare or
    qualified with its namespaces) has 2 rows and 3 columns, the text
    ["Matrix with 2 rows and 3 columns"], and exactly the two children [[0]]
    and [[1]], its rows. *)
Theorem rectangular_matrix_2_3 {V : Type}
    (text name : string) (val_data : Z -> V) :
  In name ["RectangularMatrix<2, 3, float>";
           "Magnum::Math::RectangularMatrix<2, 3, float>"] ->
  exists self,
    MagnumMatrix.init {| type_text := text; stripped_name := name |} val_data
      = Ok self
    /\ MagnumMatrix.rows self = 2
    /\ MagnumMatrix.columns self = 3
    /\ MagnumMatrix.to_string self = "Matrix with 2 rows and 3 columns"
    /\ consume MagnumMatrix.next 3 (MagnumMatrix.children self)
       = Some (Ok [("[0]", val_data 0); ("[1]", val_data 1)]).
Proof.
  intros Hname.
  exists {| MagnumMatrix.val_data := val_data;
            MagnumMatrix.rows := 2; MagnumMatrix.columns := 3 |}.
  destruct Hname as [<-|[<-|[]]]; repeat split; reflexivity.
Qed.

Lemma rectangular_matrix_2_3_witness :
  exists self,
    MagnumMatrix.init
      {| type_text := "Magnum::Matrix2x3";
         stripped_name := "Magnum::Math::RectangularMatrix<2, 3, float>" |}
      (fun i => i)
      = Ok self
    /\ MagnumMatrix.rows self = 2
    /\ MagnumMatrix.columns self = 3
    /\ MagnumMatrix.to_string self = "Matrix with 2 rows and 3 columns"
    /\ consume MagnumMatrix.next 3 (MagnumMatrix.children self)
       = Some (Ok [("[0]", 0); ("[1]", 1)]).
Proof.
  apply (rectangular_matrix_2_3 "Magnum::Matrix2x3"
           "Magnum::Math::RectangularMatrix<2, 3, float>" (fun i : Z => i)).
  right. left. reflexivity.
Defined.

(** C9: a matrix whose stripped type name does not contain
    ["RectangularMatrix"] is constructed with as many columns as rows, its
    text reports that square shape, and it yields exactly [rows] children,
    [[0]] .. [[rows-1]]. *)
Theorem square_matrix_columns {V : Type}
    (ty : gdb_type) (val_data : Z -> V) (self : MagnumMatrix.t V) :
  MagnumMatrix.init ty val_data = Ok self ->
  Py.contains "RectangularMatrix" (stripped_name ty) = false ->
  MagnumMatrix.columns self = MagnumMatrix.rows self
  /\ MagnumMatrix.to_string self
     = "Matrix with " ++ Py.str (MagnumMatrix.rows self) ++ " rows and "
       ++ Py.str (MagnumMatrix.rows self) ++ " columns"
  /\ forall n : nat,
       MagnumMatrix.rows self = Z.of_nat n ->
       consume MagnumMatrix.next (S n) (MagnumMatrix.children self)
       = Some (Ok (map (fun i => ("[" ++ Py.str i ++ "]", val_data i))
                       (zrange 0 n))).
Proof.
  intros Hinit Hname. unfold MagnumMatrix.init in Hinit.
  rewrite Hname in Hinit.
  destruct (match MagnumMatrix.rows_from_arguments (stripped_name ty) with
            | Raise ValueError =>
                MagnumMatrix.rows_from_name (stripped_name ty)
            | r => r
            end) as [rows|e]; [|discriminate].
  cbn [bind] in Hinit. injection Hinit as <-.
  split; [reflexivity|]. split; [reflexivity|].
  intros n Hn.
  apply (matrix_children
           {| MagnumMatrix.val_data := val_data; MagnumMatrix.rows := rows;
              MagnumMatrix.columns := rows |} n Hn).
  lia.
Qed.

Lemma square_matrix_columns_witness :
  let self := {| MagnumMatrix.val_data := fun i : Z => i;
                 MagnumMatrix.rows := 3; MagnumMatrix.columns := 3 |} in
  MagnumMatrix.columns self = MagnumMatrix.rows self
  /\ MagnumMatrix.to_string self
     = "Matrix with " ++ Py.str (MagnumMatrix.rows self) ++ " rows and "
       ++ Py.str (MagnumMatrix.rows self) ++ " columns"
  /\ forall n : nat,
       MagnumMatrix.rows self = Z.of_nat n ->
       consume MagnumMatrix.next (S n) (MagnumMatrix.children self)
       = Some (Ok (map (fun i => ("[" ++ Py.str i ++ "]", i)) (zrange 0 n))).
Proof.
  intros self.
  apply (square_matrix_columns
           {| type_text := "Magnum::Matrix3";
              stripped_name := "Magnum::Math::Matrix3<float>" |}
           (fun i : Z => i) self).
  - reflexivity.
  - reflexivity.
Defined.

(** *** The row count is a count

    A negative row count needs a minus sign in the type name, which the
    names of the matrix types never have. *)









Example matrix_shapes :
  forall data : Z -> Z,
    map (fun name =>
           match MagnumMatrix.init {| type_text := name;
                                      stripped_name := name |} data with
           | Ok self => Ok (MagnumMatrix.rows self, MagnumMatrix.columns self)
           | Raise e => Raise e
           end)
        ["Magnum::Math::Matrix<2, float>"; "Magnum::Math::Matrix3<float>";
         "Magnum::Math::Matrix4<double>";
         "Magnum::Math::RectangularMatrix<4, 2, float>";
         "Magnum::Math::Matrix"]
    = [Ok (2, 2); Ok (3, 3); Ok (4, 4); Ok (4, 2); Raise IndexError].
Proof. intros. reflexivity. Qed.

Lemma bitvector_children_witness :
  let val_data := fun i : Z => if i =? 0 then 5 else 2 in
  let self := {| MagnumBitVector.val_data := val_data;
                 MagnumBitVector.size := 10 |} in
  consume MagnumBitVector.next 11 (MagnumBitVector.children self)
  = Some (Ok [("[0]", true); ("[1]", false); ("[2]", true);
              ("[3]", false); ("[4]", false); ("[5]", false);
              ("[6]", false); ("[7]", false);
              ("[8]", false); ("[9]", true)]).
Proof.
  intros val_data self.
  refine (proj2 (bitvector_children val_data 10 _) eq_refl eq_refl).
  vm_compute. split; discriminate.
Defined.

(** ** C5: the frustum *)

(** C5, as the code has it: the frustum printer has no text of its own, so
    its text is the type of the value, and it yields exactly 6 children whose
    labels are the names left, right, bottom, top, near, far, each enclosed
    in square brackets, in that order. *)
Theorem frustum_children {V : Type} (ty : gdb_type) (val_data : Z -> V) :
  overrides_to_string MagnumFrustum = false
  /\ MagnumFrustum.to_string ty = type_text ty
  /\ consume MagnumFrustum.next 7 (MagnumFrustum.children val_data)
     = Some (Ok [("[left]", val_data 0); ("[right]", val_data 1);
                 ("[bottom]", val_data 2); ("[top]", val_data 3);
                 ("[near]", val_data 4); ("[far]", val_data 5)]).
Proof. repeat split; reflexivity. Qed.

(** C5 as stated fails: the labels are not the bare names. *)
Lemma frustum_labels_counterexample :
  exists kids,
    consume MagnumFrustum.next 7 (MagnumFrustum.children (fun i : Z => i))
      = Some (Ok kids)
    /\ map fst kids <> ["left"; "right"; "bottom"; "top"; "near"; "far"].
Proof.
  eexists. split; [reflexivity|]. discriminate.
Qed.

(** ** C6: the keyframe track *)

Lemma list_get_middle {A : Type} (seen rest : list A) (x : A) :
  list_get (seen ++ x :: rest)%list (Z.of_nat (List.length seen)) = Ok x.
Proof.
  unfold list_get.
  assert (Hlen : Z.of_nat (List.length seen)
                 < Z.of_nat (List.length (seen ++ x :: rest)%list)).
  { rewrite length_app. simpl. lia. }
  replace (Z.of_nat (List.length seen) <? 0) with false
    by (symmetry; apply Z.ltb_ge; lia).
  replace (Z.of_nat (List.length (seen ++ x :: rest)%list)
           <=? Z.of_nat (List.length seen))
    with false by (symmetry; apply Z.leb_gt; lia).
  cbn [orb]. rewrite Nat2Z.id. unfold Py.index.
  rewrite nth_error_app2 by lia. rewrite Nat.sub_diag.
  replace (Z.of_nat (List.length seen) <? 0) with false
    by (symmetry; apply Z.ltb_ge; lia).
  reflexivity.
Qed.

(** The children of a track from the field at position [length seen] on. *)
Lemma track_children_from {V : Type} (all : list (string * V)) :
  forall (rest seen : list (string * V)) (fuel : nat),
    all = (seen ++ rest)%list ->
    Forall (fun f => Py.occurs "_" (fst f) = true) rest ->
    (List.length rest < fuel)%nat ->
    consume MagnumTrack.next fuel
            {| MagnumTrack.it_fields := all;
               MagnumTrack.index := Z.of_nat (List.length seen) |}
    = Some (Ok (map (fun f => ("[" ++ nth 1 (Py.split "_" (fst f)) "" ++ "]",
                               snd f))
                    rest)).
Proof.
  induction rest as [|[fname v] rest IH]; intros seen fuel Hall Hnames Hfuel.
  - destruct fuel as [|fuel]; [simpl in Hfuel; lia|].
    simpl. unfold MagnumTrack.next. cbn [MagnumTrack.index MagnumTrack.it_fields].
    rewrite Hall, app_nil_r, Z.eqb_refl. reflexivity.
  - destruct fuel as [|fuel]; [simpl in Hfuel; lia|].
    inversion Hnames as [|? ? Hname Hrest]; subst.
    cbn [consume]. unfold MagnumTrack.next at 1.
    cbn [MagnumTrack.index MagnumTrack.it_fields].
    assert (Hlen : Z.of_nat (List.length seen)
                   < Z.of_nat (List.length (seen ++ (fname, v) :: rest)%list)).
    { rewrite length_app. simpl. lia. }
    replace (Z.of_nat (List.length seen)
             =? Z.of_nat (List.length (seen ++ (fname, v) :: rest)%list))
      with false by (symmetry; apply Z.eqb_neq; lia).
    rewrite list_get_middle.
    (* the name has a second piece *)
    assert (Hsplit : exists a b more, Py.split "_" fname = a :: b :: more).
    { clear - Hname. simpl in Hname.
      induction fname as [|c s IHs]; [discriminate|].
      simpl in Hname. simpl.
      destruct (Ascii.eqb c "_") eqn:Ec.
      - destruct (Py.split "_" s) as [|b more] eqn:Es.
        + destruct s; simpl in Es; [discriminate|].
          destruct (Ascii.eqb a "_"); [discriminate|].
          destruct (Py.split "_" s); discriminate.
        + exists "", b, more. reflexivity.
      - simpl in Hname. destruct (IHs Hname) as (a & b & more & E).
        rewrite E. exists (String c a), b, more. reflexivity. }
    destruct Hsplit as (a & b & more & Esplit).
    cbn [fst snd]. rewrite Esplit. cbn [Py.index nth_error nth].
    specialize (IH (seen ++ [(fname, v)])%list fuel).
    rewrite length_app in IH. simpl in IH.
    replace (Z.of_nat (List.length seen) + 1)
      with (Z.of_nat (List.length seen + 1)) by lia.
    rewrite IH.
    + cbn [map fst snd]. rewrite Esplit. reflexivity.
    + rewrite <- app_assoc. reflexivity.
    + exact Hrest.
    + simpl in Hfuel. lia.
Qed.

(** C6, as the code has it: the text of a track is its type, [" with "], the
    stored keyframe count and [" keyframes"]; the printer does define
    children, one per field of the type of the value, labelled with the part
    of the field name after its first underscore (up to the next one) in
    square brackets. *)
Theorem track_text_and_children {V : Type} (val : MagnumTrack.value V) :
  Forall (fun f => Py.occurs "_" (fst f) = true) (MagnumTrack.fields val) ->
  MagnumTrack.to_string val
  = type_text (MagnumTrack.type val) ++ " with "
    ++ Py.str (MagnumTrack.data_size val) ++ " keyframes"
  /\ defines_children MagnumTrack = true
  /\ consume MagnumTrack.next (S (List.length (MagnumTrack.fields val)))
             (MagnumTrack.children val)
     = Some (Ok (map (fun f =>
                        ("[" ++ nth 1 (Py.split "_" (fst f)) "" ++ "]", snd f))
                     (MagnumTrack.fields val))).
Proof.
  intros Hnames. split; [reflexivity|]. split; [reflexivity|].
  apply (track_children_from (MagnumTrack.fields val)
           (MagnumTrack.fields val) [] _ eq_refl Hnames).
  lia.
Qed.

Lemma track_text_and_children_witness :
  let val := {| MagnumTrack.type :=
                  {| type_text := "Magnum::Animation::Track<float, int>";
                     stripped_name := "Magnum::Animation::Track<float, int, int>" |};
                MagnumTrack.fields :=
                  [("_data", 0); ("_interpolation", 1); ("_interpolator", 2);
                   ("_before", 3); ("_after", 4)];
                MagnumTrack.data_size := 12 |} in
  MagnumTrack.to_string val
  = "Magnum::Animation::Track<float, int> with 12 keyframes"
  /\ consume MagnumTrack.next 6 (MagnumTrack.children val)
     = Some (Ok [("[data]", 0); ("[interpolation]", 1); ("[interpolator]", 2);
                 ("[before]", 3); ("[after]", 4)]).
Proof.
  intros val.
  assert (Hnames : Forall (fun f : string * Z => Py.occurs "_" (fst f) = true)
                          (MagnumTrack.fields val)).
  { repeat constructor. }
  destruct (track_text_and_children val Hnames) as (Htext & _ & Hkids).
  split; [exact Htext|exact Hkids].
Defined.

(** C6 as stated fails: the class defines [children], and a track with its
    five fields shows five of them. *)
Lemma track_children_counterexample :
  defines_children MagnumTrack = true
  /\ exists kids,
       consume MagnumTrack.next 6
         (MagnumTrack.children
            {| MagnumTrack.type :=
                 {| type_text := "Magnum::Animation::Track<float, int>";
                    stripped_name :=
                      "Magnum::Animation::Track<float, int, int>" |};
               MagnumTrack.fields :=
                 [("_data", 0); ("_interpolation", 1); ("_interpolator", 2);
                  ("_before", 3); ("_after", 4)];
               MagnumTrack.data_size := 12 |})
       = Some (Ok kids)
       /\ kids <> [].
Proof.
  split; [reflexivity|]. eexists. split; [reflexivity|]. discriminate.
Qed.

(** ** C7: the resource key *)

Lemma append_assoc (a b c : string) : (a ++ b) ++ c = a ++ (b ++ c).
Proof. induction a as [|x a IH]; simpl; [reflexivity|]. now rewrite IH. Qed.

Lemma append_length (a b : string) :
  String.length (a ++ b) = (String.length a + String.length b)%nat.
Proof. induction a as [|x a IH]; simpl; [reflexivity|]. now rewrite IH. Qed.

Lemma join_chars (s : string) : Py.join "" (Py.chars s) = s.
Proof.
  induction s as [|c s IH]; [reflexivity|].
  cbn [Py.chars]. destruct s as [|d s]; [reflexivity|].
  change (Py.join "" (String c "" :: Py.chars (String d s)))
    with (String c (Py.join "" (Py.chars (String d s)))).
  now rewrite IH.
Qed.

Lemma forallb_chars_app (f : ascii -> bool) (a b : string) :
  forallb f (list_ascii_of_string (a ++ b))
  = forallb f (list_ascii_of_string a) && forallb f (list_ascii_of_string b).
Proof.
  induction a as [|x a IH]; simpl; [reflexivity|].
  now rewrite IH, andb_assoc.
Qed.

(** A byte is shown as exactly two lowercase hexadecimal digits. *)
Lemma format_02x_byte (b : Z) :
  0 <= b < 256 ->
  String.length (Py.format_02x b) = 2%nat
  /\ forallb is_lower_hex (list_ascii_of_string (Py.format_02x b)) = true.
Proof.
  intros Hb.
  assert (All : forallb
                  (fun b => Nat.eqb (String.length (Py.format_02x b)) 2
                            && forallb is_lower_hex
                                 (list_ascii_of_string (Py.format_02x b)))
                  (zrange 0 256) = true) by (vm_compute; reflexivity).
  rewrite forallb_forall in All.
  specialize (All b (zrange_In 256 0 b ltac:(lia))).
  apply andb_true_iff in All. destruct All as [Hlen Hhex].
  apply Nat.eqb_eq in Hlen. split; assumption.
Qed.

(** C7: the text of a resource key is its 8 stored bytes, each as two
    lowercase hexadecimal digits, one after the other with nothing between;
    the printer has no children; the bytes 01 AB 00 FF 10 20 30 40 give
    ["01ab00ff10203040"]. *)
Theorem resource_key_hex (digest : Z -> Z) :
  let byte := fun i => Py.format_02x (Z.land (digest i) 255) in
  MagnumResourceKey.to_string digest
  = byte 0 ++ byte 1 ++ byte 2 ++ byte 3 ++ byte 4 ++ byte 5 ++ byte 6
    ++ byte 7
  /\ String.length (MagnumResourceKey.to_string digest) = 16%nat
  /\ forallb is_lower_hex
       (list_ascii_of_string (MagnumResourceKey.to_string digest)) = true
  /\ defines_children MagnumResourceKey = false
  /\ MagnumResourceKey.to_string
       (fun i => nth (Z.to_nat i) [1; 171; 0; 255; 16; 32; 48; 64] 0)
     = "01ab00ff10203040".
Proof.
  intros byte.
  assert (Htext : MagnumResourceKey.to_string digest
                  = byte 0 ++ byte 1 ++ byte 2 ++ byte 3 ++ byte 4 ++ byte 5
                    ++ byte 6 ++ byte 7).
  { unfold MagnumResourceKey.to_string. rewrite join_chars.
    cbn [MagnumResourceKey.loop Z.add Pos.add Pos.succ].
    fold (byte 0) (byte 1) (byte 2) (byte 3) (byte 4) (byte 5) (byte 6)
         (byte 7).
    rewrite !append_assoc. reflexivity. }
  assert (Hbyte : forall i,
             String.length (byte i) = 2%nat
             /\ forallb is_lower_hex (list_ascii_of_string (byte i)) = true).
  { intros i. apply format_02x_byte.
    change 255 with (Z.ones 8). rewrite Z.land_ones by lia.
    change (2 ^ 8) with 256. apply Z.mod_pos_bound. lia. }
  split; [exact Htext|]. rewrite Htext.
  split; [|split; [|split; [reflexivity|vm_compute; reflexivity]]].
  - rewrite !append_length.
    rewrite (proj1 (Hbyte 0)), (proj1 (Hbyte 1)), (proj1 (Hbyte 2)),
      (proj1 (Hbyte 3)), (proj1 (Hbyte 4)), (proj1 (Hbyte 5)),
      (proj1 (Hbyte 6)), (proj1 (Hbyte 7)).
    reflexivity.
  - rewrite !forallb_chars_app.
    rewrite (proj2 (Hbyte 0)), (proj2 (Hbyte 1)), (proj2 (Hbyte 2)),
      (proj2 (Hbyte 3)), (proj2 (Hbyte 4)), (proj2 (Hbyte 5)),
      (proj2 (Hbyte 6)), (proj2 (Hbyte 7)).
    reflexivity.
Qed.

(** ** C4 and C10: half-precision values *)

Lemma le_value_two_bytes (n : Z) :
  0 <= n < 65536 -> Py.le_value (Py.le_bytes 2 n) = n.
Proof.
  intros Hn. cbn [Py.le_bytes Py.le_value].
  assert (Hq : 0 <= n / 256 < 256).
  { split; [apply Z.div_pos; lia|apply Z.div_lt_upper_bound; lia]. }
  rewrite (Z.mod_small (n / 256)) by lia.
  pose proof (Z.div_mod n 256 ltac:(lia)). lia.
Qed.

(** Writing the pattern with a byte order and reading it back with the same
    one gives the pattern's binary16 value. *)
Lemma unpack_to_bytes (order : Py.byteorder) (n : Z) :
  0 <= n < 65536 ->
  (data <- Py.to_bytes n 2 order ;; Py.unpack_e order data)
  = Ok (Py.binary16 n).
Proof.
  intros Hn. unfold Py.to_bytes.
  replace (n <? 0) with false by (symmetry; apply Z.ltb_ge; lia).
  change (256 ^ Z.of_nat 2) with 65536.
  replace (65536 <=? n) with false by (symmetry; apply Z.leb_gt; lia).
  cbn [orb bind]. unfold Py.unpack_e.
  destruct order.
  - cbn [Py.le_bytes List.length Nat.eqb]. f_equal. f_equal.
    apply (le_value_two_bytes n Hn).
  - rewrite length_rev. cbn [Py.le_bytes List.length Nat.eqb].
    f_equal. f_equal.
    change (rev (rev [n mod 256; n / 256 mod 256]))
      with (Py.le_bytes 2 n).
    apply (le_value_two_bytes n Hn).
Qed.

Lemma half_to_string_decodes (order : Py.byteorder) (bits : Z) :
  0 <= bits < 65536 ->
  MagnumHalf.to_string order bits = Ok (Py.float_repr (Py.binary16 bits)).
Proof.
  intros Hbits. unfold MagnumHalf.to_string.
  pose proof (unpack_to_bytes order bits Hbits) as E.
  destruct (Py.to_bytes bits 2 order) as [data|e]; [|discriminate].
  cbn [bind] in *. rewrite E. reflexivity.
Qed.

(** C4: the text of a half is the text of the float that its stored 16-bit
    pattern denotes as an IEEE-754 binary16 value; the pattern [0x3C00]
    denotes [1024 * 2^-10], that is 1, shown as ["1.0"]. *)
Theorem half_decode (order : Py.byteorder) (bits : Z) :
  0 <= bits < 65536 ->
  MagnumHalf.to_string order bits = Ok (Py.float_repr (Py.binary16 bits))
  /\ (bits = 15360 ->
      Py.binary16 bits = Py.Finite false 1024 (-10)
      /\ MagnumHalf.to_string order bits = Ok "1.0").
Proof.
  intros Hbits.
  pose proof (half_to_string_decodes order bits Hbits) as Htext.
  split; [exact Htext|].
  intros ->. split; [reflexivity|].
  rewrite Htext. vm_compute. reflexivity.
Qed.

Lemma half_decode_witness :
  MagnumHalf.to_string Py.little 15360 = Ok "1.0".
Proof.
  refine (proj2 (proj2 (half_decode Py.little 15360 _) eq_refl)).
  lia.
Defined.

(** C10: the text of a half does not depend on the byte order of the
    interpreter: for every stored value, writing it as two bytes in the
    order [sys.byteorder] and reading these as a native binary16 gives the
    same number, hence the same text, for the little and the big order. *)
Theorem half_byteorder_independent (bits : Z) :
  (data <- Py.to_bytes bits 2 Py.little ;; Py.unpack_e Py.little data)
  = (data <- Py.to_bytes bits 2 Py.big ;; Py.unpack_e Py.big data)
  /\ MagnumHalf.to_string Py.little bits = MagnumHalf.to_string Py.big bits.
Proof.
  destruct (Z_lt_dec bits 0) as [Hneg|Hpos];
    [|destruct (Z_le_dec 65536 bits) as [Hbig|Hsmall]].
  - unfold MagnumHalf.to_string, Py.to_bytes.
    replace (bits <? 0) with true by (symmetry; apply Z.ltb_lt; lia).
    split; reflexivity.
  - unfold MagnumHalf.to_string, Py.to_bytes.
    change (256 ^ Z.of_nat 2) with 65536.
    replace (65536 <=? bits) with true by (symmetry; apply Z.leb_le; lia).
    rewrite orb_true_r. split; reflexivity.
  - assert (Hbits : 0 <= bits < 65536) by lia.
    split.
    + now rewrite !unpack_to_bytes.
    + now rewrite !half_to_string_decodes.
Qed.

(** ** C8: registration *)

(** Whatever the host does, once the global holds a collection it is kept,
    [build_magnum_printer] does nothing, and [register_magnum_printers] is
    one call of the host's [register_pretty_printer] with that collection. *)
Lemma register_calls_host {Host : Type}
    (register_pretty_printer :
       target -> option RegexpCollectionPrettyPrinter -> Host
       -> result unit * Host)
    (obj : option target) (s : state Host)
    (pp : RegexpCollectionPrettyPrinter) :
  magnum_printers s = Some pp ->
  build_magnum_printer s = s
  /\ magnum_printers (snd (register_magnum_printers register_pretty_printer
                             obj s)) = Some pp
  /\ (fst (register_magnum_printers register_pretty_printer obj s),
      host (snd (register_magnum_printers register_pretty_printer obj s)))
     = register_pretty_printer (match obj with None => Gdb | Some o => o end)
                               (Some pp) (host s).
Proof.
  intros Hpp. unfold build_magnum_printer, register_magnum_printers.
  rewrite Hpp. cbn iota. rewrite Hpp.
  destruct (register_pretty_printer
              match obj with None => Gdb | Some o => o end
              (Some pp) (host s)) as [r h].
  cbn [fst snd magnum_printers host]. repeat split.
Qed.

(** The first call builds the collection of the 33 bindings. *)
Lemma first_call_builds {Host : Type}
    (register_pretty_printer :
       target -> option RegexpCollectionPrettyPrinter -> Host
       -> result unit * Host)
    (obj : option target) (s : state Host) :
  magnum_printers s = None ->
  magnum_printers (snd (register_magnum_printers register_pretty_printer
                          obj s)) = Some magnum_registry
  /\ List.length (subprinters magnum_registry) = 33%nat
  /\ name magnum_registry = "Magnum".
Proof.
  intros Hnone. unfold register_magnum_printers, build_magnum_printer.
  rewrite Hnone. cbn [magnum_printers host].
  destruct (register_pretty_printer
              match obj with None => Gdb | Some o => o end
              (Some magnum_registry) (host s)) as [r h].
  repeat split.
Qed.

(** C8, as the code has it: once the process-wide collection exists, building
    it again does nothing and no registration changes it; but every call of
    [register_magnum_printers] registers it with the host again.  With gdb as
    the host, an object that already has it raises [RuntimeError] and keeps
    its printers, and an object that does not gets it at the front of its
    printers, the other objects keeping theirs. *)
Theorem registration_after_first_call
    (obj : option target) (s : state GdbHost.t) :
  magnum_printers s = Some magnum_registry ->
  let o := match obj with None => Gdb | Some o => o end in
  let r := fst (register_magnum_printers GdbHost.register_pretty_printer
                  obj s) in
  let s' := snd (register_magnum_printers GdbHost.register_pretty_printer
                   obj s) in
  build_magnum_printer s = s
  /\ magnum_printers s' = Some magnum_registry
  /\ (if existsb (GdbHost.has_name "Magnum") (host s o)
      then r = Raise (RuntimeError "pretty-printer already registered: Magnum")
           /\ host s' = host s
      else r = Ok tt
           /\ host s' o = GdbHost.Collection magnum_registry :: host s o
           /\ forall o', GdbHost.target_eqb o' o = false ->
                         host s' o' = host s o').
Proof.
  intros Hpp o r s'.
  destruct (register_calls_host GdbHost.register_pretty_printer obj s
              magnum_registry Hpp) as (Hbuild & Hkept & Hcall).
  split; [exact Hbuild|]. split; [exact Hkept|].
  fold o r s' in Hcall.
  unfold GdbHost.register_pretty_printer in Hcall.
  change (Py.contains ";" (name magnum_registry)) with false in Hcall.
  change (name magnum_registry) with "Magnum" in Hcall.
  cbn iota in Hcall.
  destruct (existsb (GdbHost.has_name "Magnum") (host s o)).
  - injection Hcall as Hr Hh. split; assumption.
  - injection Hcall as Hr Hh. split; [exact Hr|].
    rewrite Hh. split.
    + assert (E : GdbHost.target_eqb o o = true).
      { destruct o; simpl; try reflexivity; apply String.eqb_refl. }
      rewrite E. reflexivity.
    + intros o' Ho'. rewrite Ho'. reflexivity.
Qed.

Lemma registration_after_first_call_witness :
  let s1 := snd (register_magnum_printers GdbHost.register_pretty_printer
                   None initial) in
  let s2 := snd (register_magnum_printers GdbHost.register_pretty_printer
                   (Some (Objfile "libMagnum.so")) s1) in
  magnum_printers s2 = Some magnum_registry
  /\ host s2 (Objfile "libMagnum.so") = [GdbHost.Collection magnum_registry]
  /\ host s2 Gdb = [GdbHost.Collection magnum_registry].
Proof.
  intros s1 s2.
  pose proof (registration_after_first_call
                (Some (Objfile "libMagnum.so")) s1 eq_refl) as H.
  cbv zeta in H. destruct H as (_ & Hkept & Hhost).
  change (existsb (GdbHost.has_name "Magnum")
            (host s1 (Objfile "libMagnum.so"))) with false in Hhost.
  cbn iota in Hhost. destruct Hhost as (_ & Hfront & Hothers).
  split; [exact Hkept|]. split; [exact Hfront|].
  exact (Hothers Gdb eq_refl).
Defined.

(** C8 as stated fails: after a first call, a call for another object
    changes what the host has registered, and a call for the same object is
    refused by gdb with an exception. *)
Lemma registration_repeated_counterexample :
  let s1 := snd (register_magnum_printers GdbHost.register_pretty_printer
                   None initial) in
  host (snd (register_magnum_printers GdbHost.register_pretty_printer
               (Some (Objfile "libMagnum.so")) s1))
       (Objfile "libMagnum.so")
  <> host s1 (Objfile "libMagnum.so")
  /\ fst (register_magnum_printers GdbHost.register_pretty_printer None s1)
     = Raise (RuntimeError "pretty-printer already registered: Magnum").
Proof.
  intros s1. split.
  - vm_compute. discriminate.
  - vm_compute. reflexivity.
Qed.

(** ** The constructors on the registered shapes *)

Example bitvector_init_ex :
  forall data : Z -> Z,
    match MagnumBitVector.init
            {| type_text := "Magnum::BitVector4";
               stripped_name := "Magnum::Math::BitVector<10>" |} data with
    | Ok self => Ok (MagnumBitVector.to_string self)
    | Raise e => Raise e
    end = Ok "BitVector of size 10".
Proof. intros. reflexivity. Qed.

Example bezier_init_ex :
  forall data : Z -> Z,
    match MagnumBezier.init
            {| type_text := "Magnum::CubicBezier2D";
               stripped_name := "Magnum::Math::Bezier<3, 2, float>" |} data with
    | Ok self =>
        Ok (MagnumBezier.order self, MagnumBezier.dimensions self,
            consume MagnumBezier.next 5 (MagnumBezier.children self))
    | Raise e => Raise e
    end
    = Ok (3, 2, Some (Ok [("[0]", data 0); ("[1]", data 1); ("[2]", data 2);
                          ("[3]", data 3)])).
Proof. intros. reflexivity. Qed.

(** * Further properties of the printers *)

(** ** The patterns of the registry select at most one printer *)

Lemma matches_literal_prefix (items : list Re.item) :
  forall s, Re.matches items s = true ->
            String.prefix (literal_prefix items) s = true.
Proof.
  induction items as [|[cs q] rest IH]; intros s H.
  - destruct s; reflexivity.
  - destruct cs, q; try (destruct s; reflexivity).
    destruct s as [|a s']; [discriminate|].
    simpl in H. apply andb_true_iff in H. destruct H as [Ha Hrest].
    apply Ascii.eqb_eq in Ha. subst a. simpl.
    destruct (ascii_dec c c) as [_|Hne]; [|congruence].
    apply IH, Hrest.
Qed.

Lemma prefix_comparable (s : string) :
  forall a b, String.prefix a s = true -> String.prefix b s = true ->
              String.prefix a b = true \/ String.prefix b a = true.
Proof.
  induction s as [|c s IH]; intros a b Ha Hb.
  - destruct a; [|discriminate]. left. destruct b; reflexivity.
  - destruct a as [|x a]; [left; destruct b; reflexivity|].
    destruct b as [|y b]; [right; reflexivity|].
    simpl in Ha, Hb.
    destruct (ascii_dec x c) as [->|]; [|discriminate].
    destruct (ascii_dec y c) as [->|]; [|discriminate].
    simpl. destruct (ascii_dec c c) as [_|Hne]; [|congruence].
    apply IH; assumption.
Qed.

Lemma prefix_trans (a b s : string) :
  String.prefix a b = true -> String.prefix b s = true ->
  String.prefix a s = true.
Proof.
  revert a b. induction s as [|c s IH]; intros a b Hab Hbs.
  - destruct b; [|discriminate]. destruct a; [reflexivity|discriminate].
  - destruct a as [|x a]; [reflexivity|].
    destruct b as [|y b]; [discriminate|].
    simpl in *.
    destruct (ascii_dec x y) as [->|]; [|discriminate].
    destruct (ascii_dec y c) as [->|]; [|discriminate].
    apply (IH a b); assumption.
Qed.

Lemma incomparable_sym (a b : string) : incomparable a b = incomparable b a.
Proof. unfold incomparable. apply andb_comm. Qed.

Lemma pairwise_incomparable_nth (l : list string) :
  pairwise_incomparable l = true ->
  forall i j a b,
    i <> j -> nth_error l i = Some a -> nth_error l j = Some b ->
    incomparable a b = true.
Proof.
  induction l as [|x l IH]; intros Hall i j a b Hij Hi Hj.
  - destruct i; discriminate.
  - simpl in Hall. apply andb_true_iff in Hall. destruct Hall as [Hx Hl].
    rewrite forallb_forall in Hx.
    destruct i as [|i], j as [|j]; simpl in Hi, Hj.
    + congruence.
    + injection Hi as <-. apply Hx. apply (nth_error_In _ _ Hj).
    + injection Hj as <-. rewrite incomparable_sym. apply Hx.
      apply (nth_error_In _ _ Hi).
    + apply (IH Hl i j); congruence.
Qed.

Lemma search_literal_prefix (sp : subprinter) (s : string) :
  Re.search (regexp sp) s = Some true ->
  String.prefix (subprinter_prefix sp) s = true.
Proof.
  unfold Re.search, subprinter_prefix.
  destruct (Re.parse (regexp sp)) as [items|]; [|discriminate].
  simpl. intros [= H]. apply matches_literal_prefix, H.
Qed.

(** Two sub-printers of the registry whose patterns match the same name are
    the same one. *)
Lemma matching_subprinter_unique (s : string) (sp1 sp2 : subprinter) :
  In sp1 (subprinters magnum_registry) ->
  In sp2 (subprinters magnum_registry) ->
  Re.search (regexp sp1) s = Some true ->
  Re.search (regexp sp2) s = Some true ->
  sp1 = sp2.
Proof.
  intros H1 H2 M1 M2.
  apply In_nth_error in H1. destruct H1 as [i Hi].
  apply In_nth_error in H2. destruct H2 as [j Hj].
  destruct (Nat.eq_dec i j) as [->|Hij]; [congruence|].
  exfalso.
  assert (Hall : pairwise_incomparable
                   (map subprinter_prefix (subprinters magnum_registry))
                 = true) by (vm_compute; reflexivity).
  pose proof (pairwise_incomparable_nth _ Hall i j
                (subprinter_prefix sp1) (subprinter_prefix sp2) Hij
                (map_nth_error _ _ _ Hi) (map_nth_error _ _ _ Hj)) as Hinc.
  unfold incomparable in Hinc. apply andb_true_iff in Hinc.
  destruct Hinc as [H12 H21].
  destruct (prefix_comparable s _ _ (search_literal_prefix sp1 s M1)
              (search_literal_prefix sp2 s M2)) as [H|H];
    rewrite H in *; discriminate.
Qed.

Lemma lookup_some (l : list subprinter) (s : string) (c : printer_class) :
  lookup l s = Some c ->
  exists sp, In sp l /\ Re.search (regexp sp) s = Some true
             /\ gen_printer sp = c.
Proof.
  induction l as [|sp l IH]; simpl; [discriminate|].
  destruct (Re.search (regexp sp) s) as [[|]|] eqn:E.
  - intros [= <-]. exists sp. auto.
  - intros H. destruct (IH H) as (sp' & Hin & Hm & Hc). exists sp'. auto.
  - intros H. destruct (IH H) as (sp' & Hin & Hm & Hc). exists sp'. auto.
Qed.

Lemma lookup_none (l : list subprinter) (s : string) :
  lookup l s = None ->
  forall sp, In sp l -> Re.search (regexp sp) s <> Some true.
Proof.
  induction l as [|sp l IH]; simpl; [intros _ ? []|].
  destruct (Re.search (regexp sp) s) as [[|]|] eqn:E; [discriminate| |];
    intros H sp' [<-|Hin]; try congruence; apply (IH H sp' Hin).
Qed.

(** X1: for every type name at most one pattern of the registry matches, so
    that the printer that the collection selects does not depend on the
    order in which the bindings were added. *)
Theorem lookup_order_independent (l : list subprinter) (s : string) :
  Permutation (subprinters magnum_registry) l ->
  lookup l s = lookup (subprinters magnum_registry) s.
Proof.
  intros Hperm.
  destruct (lookup l s) as [c|] eqn:El;
    destruct (lookup (subprinters magnum_registry) s) as [c'|] eqn:Er.
  - destruct (lookup_some _ _ _ El) as (sp & Hin & Hm & <-).
    destruct (lookup_some _ _ _ Er) as (sp' & Hin' & Hm' & <-).
    apply (Permutation_in _ (Permutation_sym Hperm)) in Hin.
    now rewrite (matching_subprinter_unique s sp sp' Hin Hin' Hm Hm').
  - destruct (lookup_some _ _ _ El) as (sp & Hin & Hm & _).
    apply (Permutation_in _ (Permutation_sym Hperm)) in Hin.
    exfalso. exact (lookup_none _ _ Er sp Hin Hm).
  - destruct (lookup_some _ _ _ Er) as (sp & Hin & Hm & _).
    apply (Permutation_in _ Hperm) in Hin.
    exfalso. exact (lookup_none _ _ El sp Hin Hm).
  - reflexivity.
Qed.

Lemma lookup_order_independent_witness :
  lookup (rev (subprinters magnum_registry)) "Magnum::Math::Matrix3<float>"
  = lookup (subprinters magnum_registry) "Magnum::Math::Matrix3<float>".
Proof.
  apply (lookup_order_independent (rev (subprinters magnum_registry))).
  apply Permutation_rev.
Defined.

(** X2: the collection selects a printer only for a type whose name starts
    with the namespace [Magnum::]; for any other value it returns nothing
    and leaves the value to the other printers of the host. *)
Theorem lookup_only_magnum (s : string) (c : printer_class) :
  lookup (subprinters magnum_registry) s = Some c ->
  String.prefix "Magnum::" s = true.
Proof.
  intros H. destruct (lookup_some _ _ _ H) as (sp & Hin & Hm & _).
  apply (prefix_trans _ (subprinter_prefix sp)).
  - assert (Hall : forallb (fun sp => String.prefix "Magnum::"
                                        (subprinter_prefix sp))
                           (subprinters magnum_registry) = true)
      by (vm_compute; reflexivity).
    rewrite forallb_forall in Hall. apply Hall, Hin.
  - apply search_literal_prefix, Hm.
Qed.

Lemma lookup_only_magnum_witness :
  String.prefix "Magnum::" "Magnum::Math::Vector<3,float>" = true.
Proof.
  apply (lookup_only_magnum "Magnum::Math::Vector<3,float>" MagnumVectorColor).
  vm_compute. reflexivity.
Defined.

(** ** What a matching name looks like *)







(** ** Pieces of a split name *)



Lemma index1_free (sep : ascii) (s : string) :
  Py.occurs sep s = false ->
  Py.index (Py.split sep s) 1 = Raise IndexError.
Proof. intros Hs. rewrite (split_free sep s Hs). reflexivity. Qed.



(** ** Digits *)











(** ** Tactics for a name matched by a pattern *)






(** ** The constructors on the names that the registry selects *)









(** ** Vectors and colours *)

Lemma vector_loop (val_data : Z -> string) (n : nat) :
  forall i components,
    MagnumVectorColor.loop val_data i n components
    = (components ++ map val_data (zrange i n))%list.
Proof.
  induction n as [|n IH]; intros i components; simpl.
  - now rewrite app_nil_r.
  - rewrite IH, <- app_assoc. reflexivity.
Qed.

(** X8: the text of a vector or colour is its components, [dimensions] of
    them from component 0 on, separated by [", "] and enclosed in
    parentheses; a dimension count that is not positive gives ["()"], and
    three components give ["(x, y, z)"]. *)
Theorem vector_text (self : MagnumVectorColor.t) :
  MagnumVectorColor.to_string self
  = "(" ++ Py.join ", "
             (map (MagnumVectorColor.val_data self)
                  (zrange 0 (Z.to_nat (MagnumVectorColor.dimensions self))))
    ++ ")"
  /\ (MagnumVectorColor.dimensions self <= 0 ->
      MagnumVectorColor.to_string self = "()")
  /\ (MagnumVectorColor.dimensions self = 3 ->
      MagnumVectorColor.to_string self
      = "(" ++ MagnumVectorColor.val_data self 0 ++ ", "
        ++ MagnumVectorColor.val_data self 1 ++ ", "
        ++ MagnumVectorColor.val_data self 2 ++ ")").
Proof.
  unfold MagnumVectorColor.to_string. rewrite vector_loop. cbn [app].
  split; [reflexivity|]. split.
  - intros H. replace (Z.to_nat (MagnumVectorColor.dimensions self)) with O
      by lia. reflexivity.
  - intros H. rewrite H. change (Z.to_nat 3) with 3%nat.
    cbn [zrange map Py.join Z.add Pos.add Pos.succ].
    rewrite !append_assoc. reflexivity.
Qed.

(** ** Iterators, call by call *)

Lemma after_calls_counting {S A : Type} (next : S -> next_result A * S)
    (at_count : Z -> S) :
  (forall c, snd (next (at_count c)) = at_count (c + 1)) ->
  forall n c, after_calls next n (at_count c) = at_count (c + Z.of_nat n).
Proof.
  intros Hstep. induction n as [|n IH]; intros c.
  - simpl. f_equal. lia.
  - cbn [after_calls]. rewrite Hstep, IH. f_equal. lia.
Qed.

(** X9: the row iterator of a matrix, call by call: call number [k] (from
    0) yields the child [[k]], except call number [rows], which raises
    [StopIteration].  So the iterator stops once only: a call after the end
    yields a child again, and with a negative row count no call ever
    stops. *)
Theorem matrix_iterator_calls {V : Type} (self : MagnumMatrix.t V) (k : nat) :
  fst (MagnumMatrix.next
         (after_calls MagnumMatrix.next k (MagnumMatrix.children self)))
  = if Z.of_nat k =? MagnumMatrix.rows self then StopIteration
    else Yield ("[" ++ Py.str (Z.of_nat k) ++ "]",
                MagnumMatrix.val_data self (Z.of_nat k)).
Proof.
  unfold MagnumMatrix.children.
  rewrite (after_calls_counting MagnumMatrix.next
             (fun c => {| MagnumMatrix.data := MagnumMatrix.val_data self;
                          MagnumMatrix.it_rows := MagnumMatrix.rows self;
                          MagnumMatrix.row := c |})).
  - unfold MagnumMatrix.next.
    cbn [MagnumMatrix.row MagnumMatrix.it_rows MagnumMatrix.data].
    rewrite Z.add_0_l.
    destruct (Z.of_nat k =? MagnumMatrix.rows self); reflexivity.
  - intros c. unfold MagnumMatrix.next.
    cbn [MagnumMatrix.row MagnumMatrix.it_rows MagnumMatrix.data].
    destruct (c =? MagnumMatrix.rows self); reflexivity.
Qed.

(** X10: the iterator of a frustum, call by call: the calls 0 to 5 yield
    the six planes, call 6 raises [StopIteration], and every later call
    fails with [IndexError] instead of stopping again. *)
Theorem frustum_iterator_calls {V : Type} (val_data : Z -> V) (k : nat) :
  fst (MagnumFrustum.next
         (after_calls MagnumFrustum.next k (MagnumFrustum.children val_data)))
  = if (k =? 6)%nat then StopIteration
    else match nth_error MagnumFrustum.LABELS k with
         | Some label => Yield ("[" ++ label ++ "]", val_data (Z.of_nat k))
         | None => Failure IndexError
         end.
Proof.
  unfold MagnumFrustum.children.
  rewrite (after_calls_counting MagnumFrustum.next
             (fun c => {| MagnumFrustum.data := val_data;
                          MagnumFrustum.count := c |})).
  - unfold MagnumFrustum.next.
    cbn [MagnumFrustum.count MagnumFrustum.data]. rewrite Z.add_0_l.
    do 7 (destruct k as [|k]; [reflexivity|]).
    replace (Z.of_nat (S (S (S (S (S (S (S k))))))) =? MagnumFrustum.SIZE)
      with false by (symmetry; apply Z.eqb_neq; unfold MagnumFrustum.SIZE;
                     simpl List.length; lia).
    unfold list_get. change (Z.of_nat (List.length MagnumFrustum.LABELS)) with 6.
    replace (Z.of_nat (S (S (S (S (S (S (S k))))))) <? 0) with false
      by (symmetry; apply Z.ltb_ge; lia).
    replace (6 <=? Z.of_nat (S (S (S (S (S (S (S k))))))))
      with true by (symmetry; apply Z.leb_le; lia).
    reflexivity.
  - intros c. unfold MagnumFrustum.next.
    cbn [MagnumFrustum.count MagnumFrustum.data].
    destruct (c =? MagnumFrustum.SIZE); [reflexivity|].
    destruct (list_get MagnumFrustum.LABELS c); reflexivity.
Qed.


(** X11: on a type name without an opening angle bracket the constructors
    of [MagnumBitVector], [MagnumBezier] and [MagnumMatrix] all raise
    [IndexError]. *)
Theorem constructors_need_bracket {V : Type}
    (ty : gdb_type) (bits : Z -> Z) (data : Z -> V) :
  Py.occurs "<" (stripped_name ty) = false ->
  MagnumBitVector.init ty bits = Raise IndexError
  /\ MagnumBezier.init ty data = Raise IndexError
  /\ MagnumMatrix.init ty data = Raise IndexError.
Proof.
  intros H.
  unfold MagnumBitVector.init, MagnumBezier.init, template_arguments,
    MagnumMatrix.init, MagnumMatrix.rows_from_arguments.
  rewrite (index1_free "<" _ H). repeat split.
Qed.


(** ** The resource key can be read back *)

Lemma resource_key_text (digest : Z -> Z) :
  let byte := fun i => Py.format_02x (Z.land (digest i) 255) in
  MagnumResourceKey.to_string digest
  = byte 0 ++ byte 1 ++ byte 2 ++ byte 3 ++ byte 4 ++ byte 5 ++ byte 6
    ++ byte 7.
Proof.
  intros byte. unfold MagnumResourceKey.to_string. rewrite join_chars.
  cbn [MagnumResourceKey.loop Z.add Pos.add Pos.succ].
  fold (byte 0) (byte 1) (byte 2) (byte 3) (byte 4) (byte 5) (byte 6)
       (byte 7).
  rewrite !append_assoc. reflexivity.
Qed.

Lemma land_255_range (x : Z) : 0 <= Z.land x 255 < 256.
Proof.
  change 255 with (Z.ones 8). rewrite Z.land_ones by lia.
  change (2 ^ 8) with 256. apply Z.mod_pos_bound. lia.
Qed.

Lemma unhex_format_02x (b : Z) :
  0 <= b < 256 -> unhex (Py.format_02x b) = b.
Proof.
  intros Hb.
  assert (All : forallb (fun b => unhex (Py.format_02x b) =? b)
                        (zrange 0 256) = true) by (vm_compute; reflexivity).
  rewrite forallb_forall in All.
  apply Z.eqb_eq. apply All. apply zrange_In. lia.
Qed.

Lemma two_chars (s : string) :
  String.length s = 2%nat -> exists x y, s = String x (String y "").
Proof.
  destruct s as [|x [|y [|z s]]]; try discriminate. intros _. eauto.
Qed.

(** X12: the text of a resource key can be read back: for every position
    [i] of the digest, the two characters at [2i] of the text are the
    hexadecimal digits of byte [i] (taken modulo 256). *)
Theorem resource_key_round_trip (digest : Z -> Z) (i : Z) :
  0 <= i < 8 ->
  unhex (substring (Z.to_nat (2 * i)) 2 (MagnumResourceKey.to_string digest))
  = digest i mod 256.
Proof.
  intros Hi. rewrite resource_key_text. cbv zeta.
  assert (Hbyte : forall j, unhex (Py.format_02x (Z.land (digest j) 255))
                            = digest j mod 256).
  { intros j. rewrite unhex_format_02x by apply land_255_range.
    change 255 with (Z.ones 8). now rewrite Z.land_ones by lia. }
  assert (Hlen : forall j, exists x y,
               Py.format_02x (Z.land (digest j) 255) = String x (String y "")).
  { intros j. apply two_chars.
    apply (format_02x_byte _ (land_255_range (digest j))). }
  destruct (Hlen 0) as (x0 & y0 & E0). destruct (Hlen 1) as (x1 & y1 & E1).
  destruct (Hlen 2) as (x2 & y2 & E2). destruct (Hlen 3) as (x3 & y3 & E3).
  destruct (Hlen 4) as (x4 & y4 & E4). destruct (Hlen 5) as (x5 & y5 & E5).
  destruct (Hlen 6) as (x6 & y6 & E6). destruct (Hlen 7) as (x7 & y7 & E7).
  assert (Hcases : i = 0 \/ i = 1 \/ i = 2 \/ i = 3 \/ i = 4 \/ i = 5
                   \/ i = 6 \/ i = 7) by lia.
  rewrite E0, E1, E2, E3, E4, E5, E6, E7.
  destruct Hcases as [->|[->|[->|[->|[->|[->|[->| ->]]]]]]];
    cbn [Z.mul Pos.mul Z.to_nat Pos.to_nat Pos.iter_op Nat.add
         append substring];
    [rewrite <- E0|rewrite <- E1|rewrite <- E2|rewrite <- E3
     |rewrite <- E4|rewrite <- E5|rewrite <- E6|rewrite <- E7];
    apply Hbyte.
Qed.

(** ** Half-precision values *)

(** X13: the text of a half is defined exactly for the stored values that
    fit 16 bits; for any other stored value [to_string] raises
    [OverflowError]. *)
Theorem half_text_defined (order : Py.byteorder) (bits : Z) :
  (0 <= bits < 65536 <->
   exists text, MagnumHalf.to_string order bits = Ok text)
  /\ (~ 0 <= bits < 65536 ->
      MagnumHalf.to_string order bits = Raise OverflowError).
Proof.
  assert (Hout : ~ 0 <= bits < 65536 ->
                 MagnumHalf.to_string order bits = Raise OverflowError).
  { intros Hbits. unfold MagnumHalf.to_string, Py.to_bytes.
    change (256 ^ Z.of_nat 2) with 65536.
    replace ((bits <? 0) || (65536 <=? bits)) with true; [reflexivity|].
    symmetry. apply orb_true_iff.
    destruct (Z_lt_dec bits 0); [left; apply Z.ltb_lt; lia|].
    right. apply Z.leb_le. lia. }
  split; [|exact Hout]. split.
  - intros Hbits. eexists. apply (half_to_string_decodes order bits Hbits).
  - intros [text Htext].
    destruct (Z_lt_dec bits 0) as [Hneg|Hpos];
      [|destruct (Z_le_dec 65536 bits) as [Hbig|Hsmall]]; [| |lia];
      rewrite Hout in Htext by lia; discriminate.
Qed.

Lemma binary16_sign (bits : Z) :
  0 <= bits <= 31744 ->
  match Py.binary16 bits, Py.binary16 (bits + 32768) with
  | Py.Finite false m e, Py.Finite true m' e' => m = m' /\ e = e'
  | Py.Infinity false, Py.Infinity true => True
  | _, _ => False
  end.
Proof.
  intros Hbits.
  assert (All : forallb
                  (fun b =>
                     match Py.binary16 b, Py.binary16 (b + 32768) with
                     | Py.Finite false m e, Py.Finite true m' e' =>
                         (m =? m') && (e =? e')
                     | Py.Infinity false, Py.Infinity true => true
                     | _, _ => false
                     end)
                  (zrange 0 (Z.to_nat 31745)) = true)
    by (vm_compute; reflexivity).
  rewrite forallb_forall in All.
  assert (Hin : In bits (zrange 0 (Z.to_nat 31745)))
    by (apply zrange_In; rewrite Z2Nat.id by lia; lia).
  specialize (All bits Hin).
  destruct (Py.binary16 bits) as [[|] m e|[|]|];
    destruct (Py.binary16 (bits + 32768)) as [[|] m' e'|[|]|];
    try discriminate; auto.
  apply andb_true_iff in All. destruct All as [Hm He].
  apply Z.eqb_eq in Hm. apply Z.eqb_eq in He. auto.
Qed.

(** X14: setting the sign bit of a stored pattern that is not a NaN
    (patterns up to [0x7C00], infinity included) puts a minus sign before
    the text, whatever the byte order. *)
Theorem half_sign_bit (order : Py.byteorder) (bits : Z) :
  0 <= bits <= 31744 ->
  exists text,
    MagnumHalf.to_string order bits = Ok text
    /\ MagnumHalf.to_string order (bits + 32768) = Ok ("-" ++ text).
Proof.
  intros Hbits.
  rewrite !half_to_string_decodes by lia.
  eexists. split; [reflexivity|]. f_equal.
  pose proof (binary16_sign bits Hbits) as Hsign.
  destruct (Py.binary16 bits) as [[|] m e|[|]|];
    destruct (Py.binary16 (bits + 32768)) as [[|] m' e'|[|]|];
    try contradiction.
  - destruct Hsign as [<- <-]. reflexivity.
  - reflexivity.
Qed.


Lemma split_second_piece (fname : string) :
  Py.occurs "_" fname = true ->
  exists a b more, Py.split "_" fname = a :: b :: more.
Proof.
  induction fname as [|c s IHs]; [discriminate|].
  simpl. destruct (Ascii.eqb c "_") eqn:Ec.
  - intros _. destruct (Py.split "_" s) as [|b more] eqn:Es.
    + destruct s; simpl in Es; [discriminate|].
      destruct (Ascii.eqb a "_"); [discriminate|].
      destruct (Py.split "_" s); discriminate.
    + exists "", b, more. reflexivity.
  - simpl. intros H. destruct (IHs H) as (a & b & more & E).
    rewrite E. exists (String c a), b, more. reflexivity.
Qed.

Lemma track_children_fail_from {V : Type} (all : list (string * V))
    (fname : string) (v : V) (rest : list (string * V)) :
  Py.occurs "_" fname = false ->
  forall (good seen : list (string * V)) (fuel : nat),
    all = (seen ++ good ++ (fname, v) :: rest)%list ->
    Forall (fun f => Py.occurs "_" (fst f) = true) good ->
    (List.length good < fuel)%nat ->
    consume MagnumTrack.next fuel
            {| MagnumTrack.it_fields := all;
               MagnumTrack.index := Z.of_nat (List.length seen) |}
    = Some (Raise IndexError).
Proof.
  intros Hbad.
  induction good as [|[gname gv] good IH]; intros seen fuel Hall Hgood Hfuel.
  - destruct fuel as [|fuel]; [simpl in Hfuel; lia|].
    cbn [consume]. unfold MagnumTrack.next.
    cbn [MagnumTrack.index MagnumTrack.it_fields].
    subst all. cbn [app].
    replace (Z.of_nat (List.length seen)
             =? Z.of_nat (List.length (seen ++ (fname, v) :: rest)%list))
      with false
      by (symmetry; apply Z.eqb_neq; rewrite length_app; simpl; lia).
    rewrite list_get_middle. rewrite (split_free "_" fname Hbad).
    reflexivity.
  - destruct fuel as [|fuel]; [simpl in Hfuel; lia|].
    inversion Hgood as [|? ? Hname Hrest]; subst.
    cbn [consume]. unfold MagnumTrack.next at 1.
    cbn [MagnumTrack.index MagnumTrack.it_fields].
    replace (Z.of_nat (List.length seen)
             =? Z.of_nat (List.length
                            (seen ++ ((gname, gv) :: good)
                                  ++ (fname, v) :: rest)%list))
      with false
      by (symmetry; apply Z.eqb_neq; rewrite !length_app; simpl; lia).
    cbn [app]. rewrite list_get_middle.
    destruct (split_second_piece gname Hname) as (a & b & more & Esplit).
    rewrite Esplit. cbn [Py.index nth_error].
    specialize (IH (seen ++ [(gname, gv)])%list fuel).
    rewrite length_app in IH. simpl in IH.
    replace (Z.of_nat (List.length seen) + 1)
      with (Z.of_nat (List.length seen + 1)) by lia.
    rewrite IH; [reflexivity| |exact Hrest|simpl in Hfuel; lia].
    rewrite <- app_assoc. reflexivity.
Qed.

(** X15: when a field of a track has no underscore in its name (a base
    class, for instance), enumerating the children fails with [IndexError]
    at that field, after the fields before it. *)
Theorem track_field_without_underscore {V : Type}
    (val : MagnumTrack.value V) (good rest : list (string * V))
    (fname : string) (v : V) :
  MagnumTrack.fields val = (good ++ (fname, v) :: rest)%list ->
  Forall (fun f => Py.occurs "_" (fst f) = true) good ->
  Py.occurs "_" fname = false ->
  consume MagnumTrack.next (S (List.length good)) (MagnumTrack.children val)
  = Some (Raise IndexError).
Proof.
  intros Hfields Hgood Hbad.
  apply (track_children_fail_from (MagnumTrack.fields val) fname v rest Hbad
           good [] _ Hfields Hgood).
  lia.
Qed.

(** ** Registering for several objects *)

Lemma target_eqb_eq (a b : target) :
  GdbHost.target_eqb a b = true <-> a = b.
Proof.
  destruct a, b; simpl; split; intros H; try discriminate; try reflexivity;
    try (apply String.eqb_eq in H; now subst);
    try (injection H as <-; apply String.eqb_refl).
Qed.

Lemma register_all_fresh (objs : list target) :
  forall s,
    magnum_printers s = None \/ magnum_printers s = Some magnum_registry ->
    NoDup objs ->
    (forall o, In o objs ->
               existsb (GdbHost.has_name "Magnum") (host s o) = false) ->
    fst (register_all objs s) = map (fun _ => Ok tt) objs
    /\ (objs <> [] ->
        magnum_printers (snd (register_all objs s)) = Some magnum_registry)
    /\ forall o,
         host (snd (register_all objs s)) o
         = if target_mem o objs
           then GdbHost.Collection magnum_registry :: host s o
           else host s o.
Proof.
  induction objs as [|x objs IH]; intros s Hglobal Hnodup Hfresh.
  - simpl. repeat split; congruence.
  - inversion Hnodup as [|? ? Hx Hrest]; subst.
    cbn [register_all].
    assert (Hcall :
      register_magnum_printers GdbHost.register_pretty_printer (Some x) s
      = (Ok tt,
         {| magnum_printers := Some magnum_registry;
            host := fun o => if GdbHost.target_eqb o x
                             then GdbHost.Collection magnum_registry
                                  :: host s o
                             else host s o |})).
    { pose proof (Hfresh x (or_introl eq_refl)) as Hx'.
      unfold register_magnum_printers, build_magnum_printer.
      destruct s as [mp h]. cbn [magnum_printers host] in *.
      destruct Hglobal as [E|E]; subst mp; cbn [magnum_printers host];
        unfold GdbHost.register_pretty_printer;
        change (Py.contains ";" (name magnum_registry)) with false;
        change (name magnum_registry) with "Magnum"; cbn iota;
        rewrite Hx'; reflexivity. }
    rewrite Hcall.
    set (s1 := {| magnum_printers := Some magnum_registry;
                  host := fun o => if GdbHost.target_eqb o x
                                   then GdbHost.Collection magnum_registry
                                        :: host s o
                                   else host s o |}).
    destruct (IH s1) as (Hres & Hreg & Hhost).
    + right. reflexivity.
    + exact Hrest.
    + intros o Ho. cbn [host s1].
      destruct (GdbHost.target_eqb o x) eqn:E.
      * apply target_eqb_eq in E. subst o. contradiction.
      * apply Hfresh. right. exact Ho.
    + destruct (register_all objs s1) as [rs s2] eqn:Eall.
      cbn [fst snd] in *. split; [cbn [map]; now rewrite Hres|].
      split.
      * intros _. destruct objs as [|y objs'].
        -- simpl in Eall. injection Eall as _ <-. reflexivity.
        -- apply Hreg. discriminate.
      * intros o. rewrite Hhost. cbn [host s1 target_mem existsb].
        fold (target_mem o objs).
        destruct (GdbHost.target_eqb o x) eqn:E.
        -- apply target_eqb_eq in E. subst o.
           replace (target_mem x objs) with false; [reflexivity|].
           symmetry. apply not_true_is_false. intros Hmem.
           unfold target_mem in Hmem. apply existsb_exists in Hmem.
           destruct Hmem as (y & Hy & Exy). apply target_eqb_eq in Exy.
           subst y. contradiction.
        -- reflexivity.
Qed.

(** X16: registering from a fresh session for a list of distinct objects
    succeeds at every call, and leaves the collection as the only printer of
    each of these objects and of no other. *)
Theorem register_all_distinct (objs : list target) :
  NoDup objs ->
  fst (register_all objs initial) = map (fun _ => Ok tt) objs
  /\ forall o,
       host (snd (register_all objs initial)) o
       = if target_mem o objs then [GdbHost.Collection magnum_registry]
         else [].
Proof.
  intros Hnodup.
  destruct (register_all_fresh objs initial (or_introl eq_refl) Hnodup)
    as (Hres & _ & Hhost).
  - intros o _. reflexivity.
  - split; [exact Hres|]. intros o. rewrite Hhost. reflexivity.
Qed.


(** ** From the selection to the children *)








(** The hypothesis of X5 is needed: a square matrix of rectangular matrices
    is selected, and its constructor raises. *)
Example matrix_of_rectangular_matrices :
  let name := "Magnum::Math::Matrix3<Magnum::Math::RectangularMatrix<2, 3, float> >" in
  lookup (subprinters magnum_registry) name = Some MagnumMatrix
  /\ MagnumMatrix.init {| type_text := name; stripped_name := name |}
                       (fun i : Z => i)
     = Raise IndexError.
Proof. split; vm_compute; reflexivity. Qed.

(** ** Instances *)



Lemma vector_text_witness :
  MagnumVectorColor.to_string
    {| MagnumVectorColor.val_data := fun i => Py.str (i + 1);
       MagnumVectorColor.dimensions := 3 |}
  = "(1, 2, 3)".
Proof.
  exact (proj2 (proj2 (vector_text
                         {| MagnumVectorColor.val_data :=
                              fun i => Py.str (i + 1);
                            MagnumVectorColor.dimensions := 3 |}))
               eq_refl).
Defined.

Lemma constructors_need_bracket_witness :
  let ty := {| type_text := "Magnum::Math::Matrix";
               stripped_name := "Magnum::Math::Matrix" |} in
  MagnumBitVector.init ty (fun i : Z => i) = Raise IndexError
  /\ MagnumBezier.init ty (fun i : Z => i) = Raise IndexError
  /\ MagnumMatrix.init ty (fun i : Z => i) = Raise IndexError.
Proof.
  intros ty.
  apply (constructors_need_bracket ty (fun i : Z => i) (fun i : Z => i)).
  reflexivity.
Defined.

Lemma resource_key_round_trip_witness :
  unhex (substring 2 2
           (MagnumResourceKey.to_string
              (fun i => nth (Z.to_nat i) [1; -85; 0; 255; 16; 32; 48; 64] 0)))
  = 171.
Proof.
  exact (resource_key_round_trip
           (fun i => nth (Z.to_nat i) [1; -85; 0; 255; 16; 32; 48; 64] 0)
           1 ltac:(lia)).
Defined.

Lemma half_text_defined_witness :
  exists text, MagnumHalf.to_string Py.big 15360 = Ok text.
Proof.
  apply (proj1 (proj1 (half_text_defined Py.big 15360))). lia.
Defined.

Lemma half_sign_bit_witness :
  exists text,
    MagnumHalf.to_string Py.little 15360 = Ok text
    /\ MagnumHalf.to_string Py.little (15360 + 32768) = Ok ("-" ++ text).
Proof.
  apply (half_sign_bit Py.little 15360). lia.
Defined.

Lemma track_field_without_underscore_witness :
  consume MagnumTrack.next 2
    (MagnumTrack.children
       {| MagnumTrack.type :=
            {| type_text := "Magnum::Animation::Track<float, int>";
               stripped_name := "Magnum::Animation::Track<float, int, int>" |};
          MagnumTrack.fields := [("_data", 0); ("Base", 1); ("_after", 2)];
          MagnumTrack.data_size := 12 |})
  = Some (Raise IndexError).
Proof.
  apply (track_field_without_underscore
           {| MagnumTrack.type :=
                {| type_text := "Magnum::Animation::Track<float, int>";
                   stripped_name :=
                     "Magnum::Animation::Track<float, int, int>" |};
              MagnumTrack.fields := [("_data", 0); ("Base", 1); ("_after", 2)];
              MagnumTrack.data_size := 12 |}
           [("_data", 0)] [("_after", 2)] "Base" 1).
  - reflexivity.
  - repeat constructor.
  - reflexivity.
Defined.

Lemma register_all_distinct_witness :
  let objs := [Gdb; Objfile "libMagnum.so"; Progspace "app"] in
  fst (register_all objs initial) = [Ok tt; Ok tt; Ok tt]
  /\ forall o,
       host (snd (register_all objs initial)) o
       = if target_mem o objs then [GdbHost.Collection magnum_registry]
         else [].
Proof.
  intros objs. apply (register_all_distinct objs).
  repeat constructor; simpl; intuition discriminate.
Defined.
